(** * RAGPack release pipeline: [scripts/build_and_publish.py]

    A shallow embedding of the build-and-publish script and the proofs of
    its specification.  The script is a sequence of file-system
    operations, external commands and operator prompts; it is embedded in
    a small monad that threads the working directory and the operator's
    pending input, may stop with [sys.exit] or an uncaught exception, and
    logs what the operator and the operating system observe.

    The whole script is embedded over a working directory of regular
    files and directories and over commands whose output decodes.  The
    two functions whose specification reaches beyond that are embedded a
    second time: the command runner over output that may not decode
    (module [Undecoded]) and the clean step over a directory that may
    hold symbolic links (module [Links]); each agrees with the first
    embedding where both apply ([run_command_decoded],
    [clean_on_plain]). *)

From Stdlib Require Import ZArith String Ascii List Bool Lia.
From stdpp Require Import gmap strings list fin_maps pretty.

#[local] Set Warnings "-register-all".
#[local] Open Scope Z_scope.

(** ** Text *)

Module Text.

(** The double quote and the line feed, as one-character strings. *)
Definition dq : string := String (ascii_of_nat 34) EmptyString.
Definition nl : string := String (ascii_of_nat 10) EmptyString.

(** [str.lower] on the ASCII letters. *)
Definition lower_char (c : ascii) : ascii :=
  let n := nat_of_ascii c in
  if (65 <=? n)%nat && (n <=? 90)%nat then ascii_of_nat (n + 32) else c.

Fixpoint lower (s : string) : string :=
  match s with
  | EmptyString => EmptyString
  | String c s' => String (lower_char c) (lower s')
  end.

(** [str.isspace] on the ASCII range: tab to carriage return, the four
    separators and the space. *)
Definition is_space (c : ascii) : bool :=
  let n := nat_of_ascii c in
  ((9 <=? n)%nat && (n <=? 13)%nat) || ((28 <=? n)%nat && (n <=? 32)%nat).

Fixpoint lstrip (s : string) : string :=
  match s with
  | EmptyString => EmptyString
  | String c s' => if is_space c then lstrip s' else s
  end.

Fixpoint rstrip (s : string) : string :=
  match s with
  | EmptyString => EmptyString
  | String c s' =>
      match rstrip s' with
      | EmptyString => if is_space c then EmptyString else String c EmptyString
      | r => String c r
      end
  end.

Definition strip (s : string) : string := rstrip (lstrip s).

(** Truth value of a string: non-empty. *)
Definition nonempty (s : string) : bool :=
  match s with EmptyString => false | String _ _ => true end.

(** [name.endswith(suffix)]. *)
Definition ends_with (suffix name : string) : bool :=
  let n := String.length name in
  let k := String.length suffix in
  (k <=? n)%nat && String.eqb (substring (n - k) k name) suffix.

(** The longest run of characters other than the double quote at the
    head of [s], and what follows it. *)
Fixpoint span_unquoted (s : string) : string * string :=
  match s with
  | EmptyString => (EmptyString, EmptyString)
  | String c s' =>
      if Ascii.eqb c (ascii_of_nat 34) then (EmptyString, s)
      else let '(g, rest) := span_unquoted s' in (String c g, rest)
  end.

(** A match, anchored at the head of [s], of the pattern made of the
    literal [lit], an opening quote, a group of one or more characters
    that are not a quote (the greedy repetition makes it the whole run)
    and a closing quote. *)
Definition match_quoted_here (lit s : string) : option string :=
  let p := lit +:+ dq in
  if String.prefix p s then
    let '(g, rest) :=
      span_unquoted (substring (String.length p) (String.length s - String.length p) s) in
    if nonempty g && String.prefix dq rest then Some g else None
  else None.

(** [re.search] for that pattern in [s], giving [group(1)] of the
    leftmost match: the positions are tried from left to right.  [lit]
    is literal text without regular-expression operators. *)
Fixpoint re_search_quoted (lit s : string) : option string :=
  match match_quoted_here lit s with
  | Some g => Some g
  | None =>
      match s with
      | EmptyString => None
      | String _ s' => re_search_quoted lit s'
      end
  end.

End Text.
Import Text.

(** ** The working directory *)

(** An entry of a directory is a regular file with its text or a directory
    with its entries.  Symbolic links come in with the module [Links]
    below, which embeds the clean step over a directory that may hold
    them; permissions and concurrent changes by other processes are
    outside the model. *)
Inductive node :=
| File (content : string)
| Dir (children : gmap string node).

Definition is_dir_node (n : node) : bool :=
  match n with Dir _ => true | File _ => false end.

(** A relative path is the list of its components:
    [Path("ragpack/__init__.py")] is [["ragpack"; "__init__.py"]]. *)
Fixpoint resolve (p : list string) (n : node) : option node :=
  match p with
  | [] => Some n
  | c :: p' =>
      match n with
      | Dir ch => match ch !! c with Some n' => resolve p' n' | None => None end
      | File _ => None
      end
  end.

(** The state a run works on: the entries of the current directory and
    the lines the operator will type. *)
Record world := World {
  cwd : gmap string node;
  stdin : list string;
}.

(** What [subprocess.run(..., capture_output=True, text=True)] gives when
    the output of the command decodes; the module [Undecoded] below has
    the output that does not. *)
Record completed := Completed {
  returncode : Z;
  stdout : string;
  stderr : string;
}.

(** ** Observable events, outcomes and the monad of the script *)

Inductive event :=
| Print (line : string)                              (* print(line) *)
| Call (command : string) (rc : Z)                   (* subprocess.run(command, shell=True) *)
| Prompt (message : string) (response : option string). (* input(message); None at end of input *)

Inductive exn :=
| CalledProcessError (cmd : string) (rc : Z) (out err : string)
| EOFError
| FileNotFoundError (path : list string)
| IsADirectoryError (path : list string)
| NotADirectoryError (path : list string)
| OSError (path : list string)
| UnicodeDecodeError.

Inductive outcome (A : Type) :=
| Ret (a : A)          (* normal completion *)
| Exit (code : Z)      (* sys.exit(code) *)
| Raise (e : exn).     (* an exception on its way up *)
Arguments Ret {A} a.
Arguments Exit {A} code.
Arguments Raise {A} e.

Definition M (A : Type) : Type := world -> outcome A * world * list event.

Definition ret {A} (a : A) : M A := fun w => (Ret a, w, []).

Definition bind {A B} (m : M A) (k : A -> M B) : M B :=
  fun w =>
    match m w with
    | (Ret a, w1, t1) => let '(o, w2, t2) := k a w1 in (o, w2, t1 ++ t2)
    | (Exit c, w1, t1) => (Exit c, w1, t1)
    | (Raise e, w1, t1) => (Raise e, w1, t1)
    end.

Declare Scope script_scope.
Delimit Scope script_scope with script.
Notation "x <- m ;; k" := (bind m (fun x => k))
  (at level 100, m at next level, right associativity) : script_scope.
Notation "m ;; k" := (bind m (fun _ => k))
  (at level 100, right associativity) : script_scope.
#[local] Open Scope script_scope.

(** [if b: body] without an [else]. *)
Definition when (b : bool) (body : M unit) : M unit :=
  if b then body else ret tt.

(** [for x in xs: body]. *)
Fixpoint for_each {A} (xs : list A) (body : A -> M unit) : M unit :=
  match xs with
  | [] => ret tt
  | x :: xs' => body x ;; for_each xs' body
  end.

(** [try: body / except CalledProcessError as e: handler]: the handler
    takes the exceptions it catches and lets the others pass. *)
Definition try_except {A} (body : M A) (handler : exn -> option (M A)) : M A :=
  fun w =>
    match body w with
    | (Raise e, w1, t1) =>
        match handler e with
        | Some h => let '(o, w2, t2) := h w1 in (o, w2, t1 ++ t2)
        | None => (Raise e, w1, t1)
        end
    | r => r
    end.

(** The exit status of the process: that of [sys.exit], 1 after an
    uncaught exception, 0 when [main] returns. *)
Definition exit_code {A} (o : outcome A) : Z :=
  match o with
  | Ret _ => 0
  | Exit c => c
  | Raise _ => 1
  end.

(** *** Primitives *)

Definition print (line : string) : M unit :=
  fun w => (Ret tt, w, [Print line]).

Definition input (message : string) : M string :=
  fun w =>
    match stdin w with
    | r :: rest => (Ret r, World (cwd w) rest, [Prompt message (Some r)])
    | [] => (Raise EOFError, w, [Prompt message None])
    end.

Definition sys_exit (code : Z) : M unit :=
  fun w => (Exit code, w, []).

(** [Path(p).exists()], [Path(p).is_dir()], [Path(p).read_text()],
    [Path(p).iterdir()]. *)
Definition path_exists (p : list string) : M bool :=
  fun w => (Ret (bool_decide (is_Some (resolve p (Dir (cwd w))))), w, []).

Definition path_is_dir (p : list string) : M bool :=
  fun w =>
    (Ret (match resolve p (Dir (cwd w)) with Some n => is_dir_node n | None => false end),
     w, []).

Definition read_text (p : list string) : M string :=
  fun w =>
    match resolve p (Dir (cwd w)) with
    | Some (File c) => (Ret c, w, [])
    | Some (Dir _) => (Raise (IsADirectoryError p), w, [])
    | None => (Raise (FileNotFoundError p), w, [])
    end.

Definition iterdir (p : list string) : M (list (string * node)) :=
  fun w =>
    match resolve p (Dir (cwd w)) with
    | Some (Dir ch) => (Ret (map_to_list ch), w, [])
    | Some (File _) => (Raise (NotADirectoryError p), w, [])
    | None => (Raise (FileNotFoundError p), w, [])
    end.

(** [Path(.).glob] for a star followed by [suffix]: the entries of the
    current directory whose name ends with [suffix], hidden ones
    included.  The operating system lists them in no particular order;
    here it is the order of the map. *)
Definition glob_suffix (suffix : string) : M (list string) :=
  fun w =>
    (Ret (filter (fun name => ends_with suffix name = true) (map_to_list (cwd w)).*1), w, []).

(** [shutil.rmtree(name)] deletes a directory with all it holds and
    refuses anything else; [Path(name).unlink()] deletes a file and
    refuses a directory. *)
Definition rmtree (name : string) : M unit :=
  fun w =>
    match cwd w !! name with
    | Some (Dir _) => (Ret tt, World (delete name (cwd w)) (stdin w), [])
    | Some (File _) => (Raise (NotADirectoryError [name]), w, [])
    | None => (Raise (FileNotFoundError [name]), w, [])
    end.

Definition unlink (name : string) : M unit :=
  fun w =>
    match cwd w !! name with
    | Some (File _) => (Ret tt, World (delete name (cwd w)) (stdin w), [])
    | Some (Dir _) => (Raise (IsADirectoryError [name]), w, [])
    | None => (Raise (FileNotFoundError [name]), w, [])
    end.

(** ** The script *)

(** What the script takes from outside the repository: the behaviour of
    the external commands run through the shell (the completed process
    and the world they leave: a command may write files and may read the
    operator's input), the text of a [CalledProcessError], and the size
    column of the artifact listing, the format field
    [file.stat().st_size / 1024:.1f] (floating point, not modelled).  A
    run of [main] passes each command line to the shell at most once, so
    a function of the command line and the world stands for any
    behaviour of the tools. *)
Record tools := Tools {
  shell : string -> world -> completed * world;
  str_called_process_error : string -> Z -> string;
  format_kb : node -> string;
}.

(** The values a Python function of the script returns where the
    specification speaks of either a flag or a text. *)
Inductive value :=
| VBool (b : bool)
| VStr (s : string).

Definition truthy (v : value) : bool :=
  match v with
  | VBool b => b
  | VStr s => nonempty s
  end.

(** The parsed command line: [--target], [--skip-checks], [--skip-clean]. *)
Inductive target := Build | TestPypi | Pypi.

Record args := Args {
  arg_target : target;
  skip_checks : bool;
  skip_clean : bool;
}.

Definition str_target (t : target) : string :=
  match t with
  | Build => "build"
  | TestPypi => "test-pypi"
  | Pypi => "pypi"
  end.

Definition str_bool (b : bool) : string := if b then "True" else "False".

Fixpoint str_mul (s : string) (n : nat) : string :=
  match n with
  | O => EmptyString
  | S n' => s +:+ str_mul s n'
  end.

Section Script.

Context (T : tools).

(** [subprocess.run(command, shell=True, check=check, capture_output=True,
    text=True)] on a command whose output decodes: with [check], a
    non-zero return code raises.  [Undecoded.subprocess_run] below has
    the command whose output does not decode. *)
Definition subprocess_run (command : string) (check : bool) : M completed :=
  fun w =>
    let '(result, w') := shell T command w in
    if check && negb (returncode result =? 0)
    then (Raise (CalledProcessError command (returncode result)
                   (stdout result) (stderr result)),
          w', [Call command (returncode result)])
    else (Ret result, w', [Call command (returncode result)]).

Definition run_command (command description : string) (check : bool) : M bool :=
  print ("🔧 " +:+ description +:+ "...") ;;
  try_except
    (result <- subprocess_run command check ;;
     (if returncode result =? 0 then
        print ("✅ " +:+ description +:+ " completed successfully") ;;
        when (nonempty (strip (stdout result)))
          (print ("   Output: " +:+ strip (stdout result)))
      else
        print ("⚠️ " +:+ description +:+ " completed with warnings") ;;
        when (nonempty (strip (stdout result)))
          (print ("   stdout: " +:+ strip (stdout result))) ;;
        when (nonempty (strip (stderr result)))
          (print ("   stderr: " +:+ strip (stderr result)))) ;;
     ret (returncode result =? 0))
    (fun e =>
       match e with
       | CalledProcessError cmd rc out err =>
           Some (print ("❌ " +:+ description +:+ " failed: "
                        +:+ str_called_process_error T cmd rc) ;;
                 when (nonempty out) (print ("   stdout: " +:+ out)) ;;
                 when (nonempty err) (print ("   stderr: " +:+ err)) ;;
                 ret false)
       | _ => None
       end).

Definition clean_build_artifacts : M unit :=
  let artifacts := ["build"; "dist"; "*.egg-info"] in
  for_each artifacts (fun pattern =>
    if String.eqb pattern "*.egg-info" then
      paths <- glob_suffix ".egg-info" ;;
      for_each paths (fun path =>
        d <- path_is_dir [path] ;;
        when d
          (print ("🧹 Removing " +:+ path) ;;
           rmtree path))
    else
      let path := pattern in
      e <- path_exists [path] ;;
      when e
        (print ("🧹 Removing " +:+ path) ;;
         d <- path_is_dir [path] ;;
         if d then rmtree path else unlink path)).

Definition check_version_consistency : M value :=
  let pyproject_path := ["pyproject.toml"] in
  e <- path_exists pyproject_path ;;
  if negb e then
    print "❌ pyproject.toml not found" ;;
    ret (VBool false)
  else
  pyproject_content <- read_text pyproject_path ;;
  match re_search_quoted "version = " pyproject_content with
  | None =>
      print "❌ Version not found in pyproject.toml" ;;
      ret (VBool false)
  | Some pyproject_version =>
  let init_path := ["ragpack"; "__init__.py"] in
  e <- path_exists init_path ;;
  if negb e then
    print "❌ ragpack/__init__.py not found" ;;
    ret (VBool false)
  else
  init_content <- read_text init_path ;;
  match re_search_quoted "__version__ = " init_content with
  | None =>
      print "❌ Version not found in ragpack/__init__.py" ;;
      ret (VBool false)
  | Some init_version =>
  if negb (String.eqb pyproject_version init_version) then
    print ("❌ Version mismatch: pyproject.toml=" +:+ pyproject_version
           +:+ ", __init__.py=" +:+ init_version) ;;
    ret (VBool false)
  else
  print ("✅ Version consistency check passed: " +:+ pyproject_version) ;;
  ret (VBool true)
  end end.

Definition checks : list (string * string) :=
  [ ("black --check ragpack tests examples scripts", "Code formatting check");
    ("flake8 ragpack tests examples scripts", "Linting check");
    ("mypy ragpack --ignore-missing-imports", "Type checking") ].

(** The loop of [run_quality_checks], with the flag it updates. *)
Fixpoint run_checks (cs : list (string * string)) (all_passed : bool) : M bool :=
  match cs with
  | [] => ret all_passed
  | (command, description) :: cs' =>
      ok <- run_command command description false ;;
      run_checks cs' (if negb ok then false else all_passed)
  end.

Definition run_quality_checks : M bool :=
  run_checks checks true.

Definition run_tests : M bool :=
  run_command "pytest tests/ -v --tb=short" "Running test suite" true.

Definition build_package : M bool :=
  run_command "python -m build" "Building package" true.

Definition check_package : M bool :=
  run_command "twine check dist/*" "Checking package" true.

Definition upload_to_test_pypi : M bool :=
  run_command "twine upload --repository testpypi dist/*" "Uploading to Test PyPI" true.

Definition upload_to_pypi : M bool :=
  run_command "twine upload dist/*" "Uploading to PyPI" true.

Definition main (a : args) : M unit :=
  print "🚀 RAGPack Build and Publish Script" ;;
  print (str_mul "=" 50) ;;
  print ("Target: " +:+ str_target (arg_target a)) ;;
  print ("Skip checks: " +:+ str_bool (skip_checks a)) ;;
  print ("Skip clean: " +:+ str_bool (skip_clean a)) ;;
  print EmptyString ;;
  (* Step 1: Clean build artifacts *)
  when (negb (skip_clean a)) clean_build_artifacts ;;
  (* Step 2: Check version consistency *)
  consistent <- check_version_consistency ;;
  when (negb (truthy consistent))
    (print "❌ Version consistency check failed" ;;
     sys_exit 1) ;;
  (* Step 3: Run quality checks *)
  when (negb (skip_checks a))
    (print (nl +:+ "📋 Running quality checks...") ;;
     passed <- run_quality_checks ;;
     when (negb passed)
       (print "❌ Quality checks failed" ;;
        response <- input "Continue anyway? (y/N): " ;;
        when (negb (String.eqb (lower response) "y"))
          (sys_exit 1)) ;;
     (* Step 4: Run tests *)
     print (nl +:+ "🧪 Running tests...") ;;
     passed <- run_tests ;;
     when (negb passed)
       (print "❌ Tests failed" ;;
        response <- input "Continue anyway? (y/N): " ;;
        when (negb (String.eqb (lower response) "y"))
          (sys_exit 1))) ;;
  (* Step 5: Build package *)
  print (nl +:+ "📦 Building package...") ;;
  built <- build_package ;;
  when (negb built)
    (print "❌ Package build failed" ;;
     sys_exit 1) ;;
  (* Step 6: Check package *)
  print (nl +:+ "🔍 Checking package...") ;;
  checked <- check_package ;;
  when (negb checked)
    (print "❌ Package check failed" ;;
     sys_exit 1) ;;
  (* Step 7: Upload based on target *)
  match arg_target a with
  | TestPypi =>
      print (nl +:+ "🚀 Uploading to Test PyPI...") ;;
      uploaded <- upload_to_test_pypi ;;
      when (negb uploaded)
        (print "❌ Upload to Test PyPI failed" ;;
         sys_exit 1) ;;
      print (nl +:+ "✅ Successfully uploaded to Test PyPI!") ;;
      print "💡 Test installation with:" ;;
      print "   pip install --index-url https://test.pypi.org/simple/ ragpack"
  | Pypi =>
      print (nl +:+ "⚠️ WARNING: You are about to upload to the PRODUCTION PyPI!") ;;
      response <- input "Are you sure you want to continue? (y/N): " ;;
      when (negb (String.eqb (lower response) "y"))
        (print "❌ Upload cancelled" ;;
         sys_exit 1) ;;
      print (nl +:+ "🚀 Uploading to PyPI...") ;;
      uploaded <- upload_to_pypi ;;
      when (negb uploaded)
        (print "❌ Upload to PyPI failed" ;;
         sys_exit 1) ;;
      print (nl +:+ "✅ Successfully uploaded to PyPI!") ;;
      print "💡 Install with:" ;;
      print "   pip install ragpack"
  | Build =>
      print (nl +:+ "✅ Package built successfully!") ;;
      print "💡 Next steps:" ;;
      print "   - Test upload: python scripts/build_and_publish.py --target test-pypi" ;;
      print "   - Production upload: python scripts/build_and_publish.py --target pypi"
  end ;;
  (* Show build artifacts *)
  let dist_path := ["dist"] in
  e <- path_exists dist_path ;;
  when e
    (print (nl +:+ "📁 Build artifacts in dist:") ;;
     files <- iterdir dist_path ;;
     for_each files (fun file =>
       print ("   - " +:+ file.1 +:+ " (" +:+ format_kb T file.2 +:+ " KB)"))).

End Script.

(** ** The command runner on output that may not decode *)

(** With [text=True], [subprocess.run] decodes what the command wrote in
    the encoding of the locale and raises [UnicodeDecodeError] on bytes
    that do not decode; by then the command has run and returned.  The
    records [completed] and [tools] above stand for commands whose output
    decodes.  Here a captured stream is its text, or nothing when it does
    not decode, and the runner is embedded once more over such tools. *)
Module Undecoded.

Record captured := Captured {
  raw_returncode : Z;
  raw_stdout : option string;
  raw_stderr : option string;
}.

Record raw_tools := RawTools {
  raw_shell : string -> world -> captured * world;
  raw_str_called_process_error : string -> Z -> string;
}.

Section Script.

Context (R : raw_tools).

Definition subprocess_run (command : string) (check : bool) : M completed :=
  fun w =>
    let '(r, w') := raw_shell R command w in
    match raw_stdout r, raw_stderr r with
    | Some out, Some err =>
        if check && negb (raw_returncode r =? 0)
        then (Raise (CalledProcessError command (raw_returncode r) out err),
              w', [Call command (raw_returncode r)])
        else (Ret (Completed (raw_returncode r) out err),
              w', [Call command (raw_returncode r)])
    | _, _ => (Raise UnicodeDecodeError, w', [Call command (raw_returncode r)])
    end.

Definition run_command (command description : string) (check : bool) : M bool :=
  print ("🔧 " +:+ description +:+ "...") ;;
  try_except
    (result <- subprocess_run command check ;;
     (if returncode result =? 0 then
        print ("✅ " +:+ description +:+ " completed successfully") ;;
        when (nonempty (strip (stdout result)))
          (print ("   Output: " +:+ strip (stdout result)))
      else
        print ("⚠️ " +:+ description +:+ " completed with warnings") ;;
        when (nonempty (strip (stdout result)))
          (print ("   stdout: " +:+ strip (stdout result))) ;;
        when (nonempty (strip (stderr result)))
          (print ("   stderr: " +:+ strip (stderr result)))) ;;
     ret (returncode result =? 0))
    (fun e =>
       match e with
       | CalledProcessError cmd rc out err =>
           Some (print ("❌ " +:+ description +:+ " failed: "
                        +:+ raw_str_called_process_error R cmd rc) ;;
                 when (nonempty out) (print ("   stdout: " +:+ out)) ;;
                 when (nonempty err) (print ("   stderr: " +:+ err)) ;;
                 ret false)
       | _ => None
       end).

End Script.

(** Tools whose output decodes, among the tools at large. *)
Definition decoded (T : tools) : raw_tools :=
  RawTools (fun command w =>
              let '(r, w') := shell T command w in
              (Captured (returncode r) (Some (stdout r)) (Some (stderr r)), w'))
           (str_called_process_error T).

End Undecoded.

(** ** The clean step on a directory with symbolic links *)

(** The working directory above holds regular files and directories.
    Here an entry may also be a symbolic link, given with what it resolves
    to (nothing when it dangles), and the clean step is embedded once
    more over such a directory.  [Path.exists] and [Path.is_dir] follow a
    link, [Path.glob] lists it by its own name, [Path.unlink] deletes the
    link itself, and [shutil.rmtree] refuses a link with an [OSError]
    (a dangling one with the [FileNotFoundError] of opening it). *)
Module Links.

Inductive entry :=
| Plain (n : node)
| Symlink (target : option node).

Definition follow (e : entry) : option node :=
  match e with
  | Plain n => Some n
  | Symlink target => target
  end.

Record world := World {
  cwd : gmap string entry;
  stdin : list string;
}.

Definition M (A : Type) : Type := world -> outcome A * world * list event.

Definition ret {A} (a : A) : M A := fun w => (Ret a, w, []).

Definition bind {A B} (m : M A) (k : A -> M B) : M B :=
  fun w =>
    match m w with
    | (Ret a, w1, t1) => let '(o, w2, t2) := k a w1 in (o, w2, t1 ++ t2)
    | (Exit c, w1, t1) => (Exit c, w1, t1)
    | (Raise e, w1, t1) => (Raise e, w1, t1)
    end.

Declare Scope links_scope.
Delimit Scope links_scope with links.
Notation "x <- m ;; k" := (bind m (fun x => k))
  (at level 100, m at next level, right associativity) : links_scope.
Notation "m ;; k" := (bind m (fun _ => k))
  (at level 100, right associativity) : links_scope.
#[local] Open Scope links_scope.

Definition when (b : bool) (body : M unit) : M unit :=
  if b then body else ret tt.

Fixpoint for_each {A} (xs : list A) (body : A -> M unit) : M unit :=
  match xs with
  | [] => ret tt
  | x :: xs' => body x ;; for_each xs' body
  end.

Definition print (line : string) : M unit :=
  fun w => (Ret tt, w, [Print line]).

(** What the name of an entry of the directory leads to. *)
Definition target_of (d : gmap string entry) (name : string) : option node :=
  match d !! name with
  | Some e => follow e
  | None => None
  end.

Definition exists_at (d : gmap string entry) (name : string) : bool :=
  bool_decide (is_Some (target_of d name)).

Definition is_dir_at (d : gmap string entry) (name : string) : bool :=
  match target_of d name with
  | Some n => is_dir_node n
  | None => false
  end.

Definition path_exists (name : string) : M bool :=
  fun w => (Ret (exists_at (cwd w) name), w, []).

Definition path_is_dir (name : string) : M bool :=
  fun w => (Ret (is_dir_at (cwd w) name), w, []).

Definition glob_suffix (suffix : string) : M (list string) :=
  fun w =>
    (Ret (filter (fun name => ends_with suffix name = true) (map_to_list (cwd w)).*1), w, []).

Definition rmtree (name : string) : M unit :=
  fun w =>
    match cwd w !! name with
    | Some (Plain (Dir _)) => (Ret tt, World (delete name (cwd w)) (stdin w), [])
    | Some (Plain (File _)) => (Raise (NotADirectoryError [name]), w, [])
    | Some (Symlink (Some _)) => (Raise (OSError [name]), w, [])
    | Some (Symlink None) => (Raise (FileNotFoundError [name]), w, [])
    | None => (Raise (FileNotFoundError [name]), w, [])
    end.

Definition unlink (name : string) : M unit :=
  fun w =>
    match cwd w !! name with
    | Some (Plain (File _)) => (Ret tt, World (delete name (cwd w)) (stdin w), [])
    | Some (Symlink _) => (Ret tt, World (delete name (cwd w)) (stdin w), [])
    | Some (Plain (Dir _)) => (Raise (IsADirectoryError [name]), w, [])
    | None => (Raise (FileNotFoundError [name]), w, [])
    end.

Definition clean_build_artifacts : M unit :=
  let artifacts := ["build"; "dist"; "*.egg-info"] in
  for_each artifacts (fun pattern =>
    if String.eqb pattern "*.egg-info" then
      paths <- glob_suffix ".egg-info" ;;
      for_each paths (fun path =>
        d <- path_is_dir path ;;
        when d
          (print ("🧹 Removing " +:+ path) ;;
           rmtree path))
    else
      let path := pattern in
      e <- path_exists path ;;
      when e
        (print ("🧹 Removing " +:+ path) ;;
         d <- path_is_dir path ;;
         if d then rmtree path else unlink path)).

End Links.

(** A directory of files and directories, among the directories at
    large. *)
Definition plain (w : world) : Links.world :=
  Links.World (Links.Plain <$> cwd w) (stdin w).

(** ** Sample worlds and tools *)

Module Samples.

(** External commands that fail (return code 1, a message on the error
    stream) exactly on the commands listed in [failing], succeed
    silently otherwise, and leave the world as it is. *)
Definition shell_failing (failing : list string) (command : string) (w : world)
  : completed * world :=
  if bool_decide (command ∈ failing)
  then (Completed 1 EmptyString "error", w)
  else (Completed 0 EmptyString EmptyString, w).

Definition tools_failing (failing : list string) : tools :=
  Tools (shell_failing failing)
        (fun cmd rc => "Command failed")
        (fun n => "0.0").

Definition tools_ok : tools := tools_failing [].

Definition pyproject_toml (version : string) : string :=
  "[project]" +:+ nl +:+ "name = " +:+ dq +:+ "ragpack" +:+ dq +:+ nl
  +:+ "version = " +:+ dq +:+ version +:+ dq +:+ nl.

Definition init_py (version : string) : string :=
  "__version__ = " +:+ dq +:+ version +:+ dq +:+ nl.

(** A checkout whose manifest and package marker carry the given
    versions, with the given further entries. *)
Definition checkout (manifest marker : string) (more : gmap string node)
  : gmap string node :=
  <["pyproject.toml" := File (pyproject_toml manifest)]>
    (<["ragpack" := Dir {[ "__init__.py" := File (init_py marker) ]}]> more).

Definition world_120 (answers : list string) : world :=
  World (checkout "1.2.0" "1.2.0" ∅) answers.

Definition world_mismatch : world :=
  World (checkout "1.2.0" "1.1.9" ∅) [].

(** A directory with leftovers of a build and a file that only looks
    like package metadata. *)
Definition world_dirty : world :=
  World (checkout "1.2.0" "1.2.0"
           {[ "build" := Dir {[ "lib" := Dir ∅ ]};
              "dist" := File "stale";
              "ragpack.egg-info" := Dir {[ "PKG-INFO" := File "Name: ragpack" ]};
              "notes.egg-info" := File "a regular file";
              "README.md" := File "RAGPack" ]})
        [].

(** Tools whose every command returns zero and writes nothing to the
    output stream; the error stream is the given text, or bytes that do
    not decode. *)
Definition raw_tools_stderr (err : option string) : Undecoded.raw_tools :=
  Undecoded.RawTools
    (fun command w => (Undecoded.Captured 0 (Some EmptyString) err, w))
    (fun cmd rc => "Command failed").

(** A directory whose [build] is a symbolic link to a directory. *)
Definition world_linked_build : Links.world :=
  Links.World
    {[ "build" := Links.Symlink (Some (Dir {[ "lib" := Dir ∅ ]}));
       "README.md" := Links.Plain (File "RAGPack") ]}
    [].

(** A directory with leftovers of a build and with symbolic links, none
    of them a link to a directory under a name the clean step looks at. *)
Definition world_links_dirty : Links.world :=
  Links.World
    {[ "build" := Links.Plain (Dir {[ "lib" := Dir ∅ ]});
       "dist" := Links.Symlink (Some (File "stale"));
       "ragpack.egg-info" := Links.Plain (Dir {[ "PKG-INFO" := File "Name: ragpack" ]});
       "old.egg-info" := Links.Symlink None;
       "notes.egg-info" := Links.Symlink (Some (File "a regular file"));
       "docs" := Links.Symlink (Some (Dir ∅));
       "README.md" := Links.Plain (File "RAGPack") ]}
    [].

End Samples.

(** ** What a run shows *)

(** The control events of a trace: the external commands and the prompts,
    without the lines printed in between. *)
Fixpoint control (t : list event) : list event :=
  match t with
  | [] => []
  | Print _ :: t' => control t'
  | e :: t' => e :: control t'
  end.

Definition outcome_of {A} (r : outcome A * world * list event) : outcome A := r.1.1.
Definition world_of {A} (r : outcome A * world * list event) : world := r.1.2.
Definition trace_of {A} (r : outcome A * world * list event) : list event := r.2.

(** The exit status of a run and its control events. *)
Definition status {A} (r : outcome A * world * list event) : Z :=
  exit_code (outcome_of r).
Definition controls {A} (r : outcome A * world * list event) : list event :=
  control (trace_of r).

(** An answer to a prompt lets the run go on when, lowercased, it is the
    letter y; the end of the input does not. *)
Definition confirms (response : option string) : bool :=
  match response with
  | Some r => String.eqb (lower r) "y"
  | None => false
  end.

Definition is_call_of (commands : list string) (e : event) : bool :=
  match e with
  | Call c _ => bool_decide (c ∈ commands)
  | _ => false
  end.

Definition is_prompt_of (message : string) (e : event) : bool :=
  match e with
  | Prompt m _ => String.eqb m message
  | _ => false
  end.

(** The version a file declares after the literal [lit]: none when the
    path is not a regular file or the pattern does not occur in it. *)
Definition file_version (lit : string) (p : list string) (d : gmap string node)
  : option string :=
  match resolve p (Dir d) with
  | Some (File c) => re_search_quoted lit c
  | _ => None
  end.

Definition manifest_version (d : gmap string node) : option string :=
  file_version "version = " ["pyproject.toml"] d.

Definition marker_version (d : gmap string node) : option string :=
  file_version "__version__ = " ["ragpack"; "__init__.py"] d.

(** What cleaning leaves of a directory, entry by entry: neither [build]
    nor [dist], and no directory whose name ends with [.egg-info]. *)
Definition kept (name : string) (n : node) : bool :=
  negb (String.eqb name "build" || String.eqb name "dist"
        || (ends_with ".egg-info" name && is_dir_node n)).

Definition cleaned (d : gmap string node) : gmap string node :=
  filter (fun e => kept e.1 e.2 = true) d.

(** Two sets of tools that differ at most in the text they produce: the
    same return codes and the same effect on the world. *)
Definition same_codes (T1 T2 : tools) : Prop :=
  forall command w,
    returncode (shell T1 command w).1 = returncode (shell T2 command w).1 /\
    (shell T1 command w).2 = (shell T2 command w).2.

(** [wpc m w Q]: the run of [m] from [w] ends in an outcome, a world and
    control events that satisfy [Q]. *)
Definition wpc {A} (m : M A) (w : world)
  (Q : outcome A -> world -> list event -> Prop) : Prop :=
  Q (outcome_of (m w)) (world_of (m w)) (controls (m w)).

(** A run that only prints: it returns, leaves the world alone and shows
    no control event. *)
Definition silent {A} (m : M A) : Prop :=
  forall w, exists a t, m w = (Ret a, w, t) /\ control t = [].

(** The loop over the metadata directories, as a fold: an entry that is a
    directory is deleted, anything else is left. *)
Definition remove_if_dir (d : gmap string node) (name : string) : gmap string node :=
  match d !! name with
  | Some (Dir _) => delete name d
  | _ => d
  end.

Definition rm_dirs (names : list string) (d : gmap string node) : gmap string node :=
  foldl remove_if_dir d names.

(** What a run shows apart from the lines it prints, and the runs that
    show the same. *)
Definition observe {A} (r : outcome A * world * list event)
  : outcome A * world * list event :=
  (outcome_of r, world_of r, controls r).

Definition sim {A} (m1 m2 : M A) : Prop :=
  forall w, observe (m1 w) = observe (m2 w).

(** The same tools with another text on the error stream. *)
Definition with_stderr (f : string -> world -> string) (T : tools) : tools :=
  Tools (fun command w =>
           let '(r, w') := shell T command w in
           (Completed (returncode r) (stdout r) (f command w), w'))
        (str_called_process_error T)
        (format_kb T).

(** ** What further properties speak of *)

(** Whether a text holds a double quote. *)
Fixpoint has_quote (s : string) : bool :=
  match s with
  | EmptyString => false
  | String c s' => Ascii.eqb c (ascii_of_nat 34) || has_quote s'
  end.

(** The text [s] holds, right after [pre], the literal [lit] and a quoted
    value [g] that is not empty and holds no quote; [post] is what
    follows the closing quote. *)
Definition occurs_quoted (lit s pre g post : string) : Prop :=
  s = pre +:+ lit +:+ dq +:+ g +:+ dq +:+ post
  /\ nonempty g = true
  /\ has_quote g = false.

(** The command lines of a list of events, in the order they were run. *)
Fixpoint calls (t : list event) : list string :=
  match t with
  | [] => []
  | Call c _ :: t' => c :: calls t'
  | _ :: t' => calls t'
  end.

(** The command lines of all the stages [main] goes through for the given
    arguments, in the order of its steps. *)
Definition pipeline (a : args) : list string :=
  (if skip_checks a then []
   else [ "black --check ragpack tests examples scripts";
          "flake8 ragpack tests examples scripts";
          "mypy ragpack --ignore-missing-imports";
          "pytest tests/ -v --tb=short" ])
  ++ [ "python -m build"; "twine check dist/*" ]
  ++ match arg_target a with
     | Build => []
     | TestPypi => [ "twine upload --repository testpypi dist/*" ]
     | Pypi => [ "twine upload dist/*" ]
     end.

(** The commands whose failure [main] does not let the operator override. *)
Definition critical : list string :=
  [ "python -m build"; "twine check dist/*";
    "twine upload --repository testpypi dist/*"; "twine upload dist/*" ].

(** An event that does not stop a run: a printed line, a critical command
    that returned zero (any other command, whatever it returned), a
    prompt that was answered with a confirmation. *)
Definition accepted (e : event) : Prop :=
  match e with
  | Print _ => True
  | Call c rc => c ∈ critical -> rc = 0
  | Prompt _ r => confirms r = true
  end.

(** Tools that leave the entries of the working directory as they are. *)
Definition inert (T : tools) : Prop :=
  forall command w, cwd (shell T command w).2 = cwd w.

(** ** What the properties of the runner on undecoded output speak of *)

(** The lines the runner prints after the command, by the return code,
    [check] and the two streams. *)
Definition report (T_str : string -> Z -> string) (command description : string)
  (check : bool) (rc : Z) (out err : string) : list event :=
  if rc =? 0 then
    Print ("✅ " +:+ description +:+ " completed successfully")
    :: (if nonempty (strip out) then [Print ("   Output: " +:+ strip out)] else [])
  else if check then
    Print ("❌ " +:+ description +:+ " failed: " +:+ T_str command rc)
    :: (if nonempty out then [Print ("   stdout: " +:+ out)] else [])
    ++ (if nonempty err then [Print ("   stderr: " +:+ err)] else [])
  else
    Print ("⚠️ " +:+ description +:+ " completed with warnings")
    :: (if nonempty (strip out) then [Print ("   stdout: " +:+ strip out)] else [])
    ++ (if nonempty (strip err) then [Print ("   stderr: " +:+ strip err)] else []).

(** ** What the properties of the clean step with links speak of *)

(** The names the clean step looks at. *)
Definition targeted (name : string) : bool :=
  String.eqb name "build" || String.eqb name "dist" || ends_with ".egg-info" name.

Definition linked_dir (e : Links.entry) : bool :=
  match e with
  | Links.Symlink (Some (Dir _)) => true
  | _ => false
  end.

(** No entry the clean step looks at is a symbolic link to a directory. *)
Definition no_linked_dir (d : gmap string Links.entry) : Prop :=
  forall name e, d !! name = Some e -> targeted name = true -> linked_dir e = false.

(** The entries the clean step takes away: [build] and [dist] when they
    exist, whatever they are, and what is a directory under a name that
    ends with [.egg-info]. *)
Definition taken (name : string) (e : Links.entry) : bool :=
  ((String.eqb name "build" || String.eqb name "dist")
   && bool_decide (is_Some (Links.follow e)))
  || (ends_with ".egg-info" name
      && match Links.follow e with Some n => is_dir_node n | None => false end).

Definition left_over (d : gmap string Links.entry) : gmap string Links.entry :=
  filter (fun x => taken x.1 x.2 = false) d.

(** The step for [build] and for [dist]: what exists under the name is
    deleted. *)
Definition drop_if_exists (d : gmap string Links.entry) (name : string)
  : gmap string Links.entry :=
  if Links.exists_at d name then delete name d else d.

(** The loop over the metadata directories, as a fold. *)
Definition drop_if_dir (d : gmap string Links.entry) (name : string)
  : gmap string Links.entry :=
  if Links.is_dir_at d name then delete name d else d.

Definition drop_dirs (names : list string) (d : gmap string Links.entry)
  : gmap string Links.entry :=
  foldl drop_if_dir d names.

(** ** The development setup script: [scripts/setup_dev.py] *)

(** [Path(name).write_text(content)] on an entry of the current directory:
    it creates the file or replaces its text, and refuses a directory.
    The operating system may refuse the write: [refusal name w] is then
    the exception it raises and the text that reached the file before,
    nothing when the file could not be opened (a read-only directory), a
    part of the text when the write broke off (a full disk).  The number
    of characters [write_text] returns is not used by the scripts. *)
Definition write_text (refusal : string -> world -> option (exn * option string))
  (name content : string) : M unit :=
  fun w =>
    match cwd w !! name with
    | Some (Dir _) => (Raise (IsADirectoryError [name]), w, [])
    | _ =>
        match refusal name w with
        | Some (e, None) => (Raise e, w, [])
        | Some (e, Some part) =>
            (Raise e, World (<[name := File part]> (cwd w)) (stdin w), [])
        | None => (Ret tt, World (<[name := File content]> (cwd w)) (stdin w), [])
        end
    end.

Module SetupDev.

(** Where the script runs: the tools, [platform.system()], the three
    numbers of [sys.version_info], the text of an exception, and the
    writes the operating system refuses. *)
Record host := Host {
  host_tools : tools;
  platform_system : string;
  version_info : Z * Z * Z;
  str_exception : exn -> string;
  write_refusal : string -> world -> option (exn * option string);
}.

Definition env_content : string :=
"# ragpackai Development Environment Variables
# Copy this file and add your actual API keys

# OpenAI (required for most examples)
OPENAI_API_KEY=your_openai_api_key_here

# Google AI (optional)
GOOGLE_API_KEY=your_google_api_key_here
GOOGLE_CLOUD_PROJECT=your_google_cloud_project

# Groq (optional)
GROQ_API_KEY=your_groq_api_key_here

# Cerebras (optional)
CEREBRAS_API_KEY=your_cerebras_api_key_here

# Development settings
ragpackai_DEBUG=true
ragpackai_LOG_LEVEL=DEBUG
".

Section Script.

Context (H : host).

Definition run_command (command description : string) : M bool :=
  print ("🔧 " +:+ description +:+ "...") ;;
  try_except
    (result <- subprocess_run (host_tools H) command true ;;
     print ("✅ " +:+ description +:+ " completed successfully") ;;
     ret true)
    (fun e =>
       match e with
       | CalledProcessError cmd rc out err =>
           Some (print ("❌ " +:+ description +:+ " failed: "
                        +:+ str_called_process_error (host_tools H) cmd rc) ;;
                 when (nonempty out) (print ("stdout: " +:+ out)) ;;
                 when (nonempty err) (print ("stderr: " +:+ err)) ;;
                 ret false)
       | _ => None
       end).

Definition check_python_version : M bool :=
  let '(major, minor, micro) := version_info H in
  if (major <? 3) || ((major =? 3) && (minor <? 9)) then
    print ("❌ Python 3.9+ required, found " +:+ pretty major +:+ "." +:+ pretty minor) ;;
    ret false
  else
    print ("✅ Python " +:+ pretty major +:+ "." +:+ pretty minor +:+ "."
           +:+ pretty micro +:+ " is compatible") ;;
    ret true.

Definition setup_virtual_environment : M bool :=
  let venv_path := ["venv"] in
  e <- path_exists venv_path ;;
  if e then
    print "✅ Virtual environment already exists" ;;
    ret true
  else
    print "🔧 Creating virtual environment..." ;;
    let command :=
      if String.eqb (platform_system H) "Windows"
      then "python -m venv venv"
      else "python3 -m venv venv" in
    run_command command "Virtual environment creation".

(** The loop of [install_dependencies]: it returns [False] from the first
    command that fails. *)
Fixpoint run_all (commands : list (string * string)) : M bool :=
  match commands with
  | [] => ret true
  | (command, description) :: commands' =>
      ok <- run_command command description ;;
      if negb ok then ret false else run_all commands'
  end.

Definition install_dependencies : M bool :=
  let pip_command :=
    if String.eqb (platform_system H) "Windows"
    then "venv\Scripts\pip"
    else "venv/bin/pip" in
  let commands :=
    [ (pip_command +:+ " install --upgrade pip", "Upgrading pip");
      (pip_command +:+ " install -e .", "Installing ragpackai in development mode");
      (pip_command +:+ " install -e .[dev]", "Installing development dependencies");
      (pip_command +:+ " install -e .[all]", "Installing all optional dependencies") ] in
  run_all commands.

Definition setup_pre_commit : M bool :=
  let pre_commit_command :=
    if String.eqb (platform_system H) "Windows"
    then "venv\Scripts\pre-commit"
    else "venv/bin/pre-commit" in
  run_command (pre_commit_command +:+ " install") "Setting up pre-commit hooks".

Definition create_env_file : M bool :=
  let env_file := ".env" in
  e <- path_exists [env_file] ;;
  if e then
    print "✅ .env file already exists" ;;
    ret true
  else
    try_except
      (write_text (write_refusal H) env_file env_content ;;
       print "✅ Created sample .env file" ;;
       print "💡 Edit .env file with your actual API keys" ;;
       ret true)
      (fun e =>
         Some (print ("❌ Failed to create .env file: " +:+ str_exception H e) ;;
               ret false)).

Definition run_tests : M bool :=
  let pytest_command :=
    if String.eqb (platform_system H) "Windows"
    then "venv\Scripts\pytest"
    else "venv/bin/pytest" in
  run_command (pytest_command +:+ " tests/ -v") "Running test suite".

Definition print_next_steps : M unit :=
  print (nl +:+ str_mul "=" 60) ;;
  print "🎉 Development environment setup complete!" ;;
  print (str_mul "=" 60) ;;
  let activate_command :=
    if String.eqb (platform_system H) "Windows"
    then "venv\Scripts\activate"
    else "source venv/bin/activate" in
  print (nl +:+ "📋 Next steps:") ;;
  print "1. Activate virtual environment:" ;;
  print ("   " +:+ activate_command) ;;
  print (nl +:+ "2. Edit .env file with your API keys:") ;;
  print "   # Add your OpenAI API key and other provider keys" ;;
  print (nl +:+ "3. Run examples:") ;;
  print "   python examples/basic_usage.py" ;;
  print "   jupyter notebook examples/01_getting_started.ipynb" ;;
  print (nl +:+ "4. Run tests:") ;;
  print "   pytest tests/ -v" ;;
  print (nl +:+ "5. Code formatting:") ;;
  print "   black ragpackai tests examples" ;;
  print "   flake8 ragpackai tests examples" ;;
  print (nl +:+ "6. Build package:") ;;
  print "   python -m build" ;;
  print (nl +:+ "💡 See CONTRIBUTING.md for detailed development guidelines").

(** The loop of [main] over the steps, with the list it appends to. *)
Fixpoint run_steps (steps : list (string * M bool)) (failed_steps : list string)
  : M (list string) :=
  match steps with
  | [] => ret failed_steps
  | (step_name, step_function) :: steps' =>
      if String.eqb step_name "Python version check" then
        run_steps steps' failed_steps
      else
        ok <- step_function ;;
        run_steps steps' (if negb ok then failed_steps ++ [step_name] else failed_steps)
  end.

Definition main : M unit :=
  print "🚀 ragpackai Development Environment Setup" ;;
  print (str_mul "=" 50) ;;
  ok <- check_python_version ;;
  when (negb ok) (sys_exit 1) ;;
  let steps :=
    [ ("Python version check", ret true);
      ("Virtual environment setup", setup_virtual_environment);
      ("Dependency installation", install_dependencies);
      ("Pre-commit hooks setup", setup_pre_commit);
      ("Environment file creation", create_env_file);
      ("Test suite verification", run_tests) ] in
  failed_steps <- run_steps steps [] ;;
  (match failed_steps with
   | _ :: _ =>
       print (nl +:+ "❌ Setup completed with " +:+ pretty (length failed_steps)
              +:+ " failed steps:") ;;
       for_each failed_steps (fun step => print ("   - " +:+ step)) ;;
       print (nl +:+ "💡 You may need to fix these issues manually")
   | [] =>
       print (nl +:+ "✅ All setup steps completed successfully!")
   end) ;;
  print_next_steps.

End Script.

End SetupDev.

(** ** What the properties of the setup script speak of *)

(** Python 3.9 or later. *)
Definition python_ok (v : Z * Z * Z) : bool :=
  let '(major, minor, _) := v in
  (3 <? major) || ((major =? 3) && (9 <=? minor)).


Definition pip_command (H : SetupDev.host) : string :=
  if String.eqb (SetupDev.platform_system H) "Windows"
  then "venv\Scripts\pip"
  else "venv/bin/pip".





(** A POSIX host whose tools fail on the commands listed. *)
Definition host_posix (failing : list string) (v : Z * Z * Z) : SetupDev.host :=
  SetupDev.Host (Samples.tools_failing failing) "Linux" v (fun _ => "error")
    (fun _ _ => None).

(** The same host in a directory it may not write to. *)
Definition host_read_only (failing : list string) (v : Z * Z * Z) : SetupDev.host :=
  SetupDev.Host (Samples.tools_failing failing) "Linux" v
    (fun _ => "Permission denied")
    (fun name _ => Some (OSError [name], None)).

(** * Proofs *)

(** ** The text functions on samples *)

Example lower_samples :
  lower "Y" = "y" /\ lower "Yes" = "yes" /\ lower "Y es" = "y es" /\ lower "n" = "n".
Proof. repeat split; reflexivity. Qed.

Example strip_samples :
  strip ("  built ok " +:+ nl) = "built ok"
  /\ strip (" " +:+ nl) = EmptyString
  /\ strip "a  b" = "a  b".
Proof. repeat split; reflexivity. Qed.

Example ends_with_samples :
  ends_with ".egg-info" "ragpack.egg-info" = true
  /\ ends_with ".egg-info" ".egg-info" = true
  /\ ends_with ".egg-info" "egg-info" = false
  /\ ends_with ".egg-info" "ragpack.egg-info.bak" = false.
Proof. repeat split; reflexivity. Qed.

(** The search takes the leftmost place where the whole pattern matches:
    an empty or unterminated quotation is passed over. *)
Example re_search_quoted_samples :
  re_search_quoted "version = " (Samples.pyproject_toml "1.2.0") = Some "1.2.0"
  /\ re_search_quoted "__version__ = " (Samples.init_py "1.1.9") = Some "1.1.9"
  /\ re_search_quoted "version = " ("version = " +:+ dq +:+ dq +:+ nl
                                    +:+ "version = " +:+ dq +:+ "2.0" +:+ dq)
     = Some "2.0"
  /\ re_search_quoted "version = " ("version = " +:+ dq +:+ "1.2.0") = None
  /\ re_search_quoted "version = " ("version=" +:+ dq +:+ "1.2.0" +:+ dq) = None
  /\ re_search_quoted "version = " ("python_version = " +:+ dq +:+ "3.8" +:+ dq +:+ nl
                                    +:+ "version = " +:+ dq +:+ "1.2.0" +:+ dq)
     = Some "3.8".
Proof. repeat split; reflexivity. Qed.

(** A run that builds only, with every tool succeeding. *)
Example main_build_sample :
  status (main Samples.tools_ok (Args Build false false) (Samples.world_120 [])) = 0
  /\ controls (main Samples.tools_ok (Args Build false false) (Samples.world_120 []))
     = [ Call "black --check ragpack tests examples scripts" 0;
         Call "flake8 ragpack tests examples scripts" 0;
         Call "mypy ragpack --ignore-missing-imports" 0;
         Call "pytest tests/ -v --tb=short" 0;
         Call "python -m build" 0;
         Call "twine check dist/*" 0 ].
Proof. split; vm_compute; reflexivity. Qed.

(** The clean step on a directory with leftovers: what it prints and what
    it leaves. *)
Example clean_sample :
  trace_of (clean_build_artifacts Samples.world_dirty)
  = [ Print "🧹 Removing build"; Print "🧹 Removing dist";
      Print "🧹 Removing ragpack.egg-info" ]
  /\ dom (cwd (world_of (clean_build_artifacts Samples.world_dirty)))
     = {[ "pyproject.toml"; "ragpack"; "notes.egg-info"; "README.md" ]}.
Proof. split; vm_compute; reflexivity. Qed.

(** ** Reasoning about runs *)

Lemma control_app t1 t2 : control (t1 ++ t2) = control t1 ++ control t2.
Proof.
  induction t1 as [|e t1 IH]; [reflexivity|].
  destruct e; simpl; rewrite ?IH; reflexivity.
Qed.

Lemma wpc_ret {A} (a : A) w Q : Q (Ret a) w [] -> wpc (ret a) w Q.
Proof. exact id. Qed.

Lemma wpc_bind {A B} (m : M A) (k : A -> M B) w Q :
  wpc m w (fun o w1 c1 =>
    match o with
    | Ret a => wpc (k a) w1 (fun o2 w2 c2 => Q o2 w2 (c1 ++ c2))
    | Exit c => Q (Exit c) w1 c1
    | Raise e => Q (Raise e) w1 c1
    end) ->
  wpc (bind m k) w Q.
Proof.
  unfold wpc, bind, outcome_of, world_of, controls, trace_of.
  destruct (m w) as [[[a|c|e] w1] t1]; simpl; try exact id.
  destruct (k a w1) as [[o2 w2] t2]; simpl.
  rewrite control_app. exact id.
Qed.

Lemma wpc_print s w Q : Q (Ret tt) w [] -> wpc (print s) w Q.
Proof. exact id. Qed.

Lemma wpc_sys_exit c w Q : Q (Exit c) w [] -> wpc (sys_exit c) w Q.
Proof. exact id. Qed.

Lemma wpc_input msg w Q :
  match stdin w with
  | r :: rest => Q (Ret r) (World (cwd w) rest) [Prompt msg (Some r)]
  | [] => Q (Raise EOFError) w [Prompt msg None]
  end ->
  wpc (input msg) w Q.
Proof.
  unfold wpc, input, outcome_of, world_of, controls, trace_of.
  destruct (stdin w); exact id.
Qed.

Lemma wpc_when (b : bool) body w Q :
  (b = true -> wpc body w Q) ->
  (b = false -> Q (Ret tt) w []) ->
  wpc (when b body) w Q.
Proof. destruct b; intros H1 H2; [apply H1 | apply H2]; reflexivity. Qed.

Lemma wpc_path_exists p w Q :
  Q (Ret (bool_decide (is_Some (resolve p (Dir (cwd w)))))) w [] ->
  wpc (path_exists p) w Q.
Proof. exact id. Qed.

Lemma wpc_silent {A} (m : M A) w Q :
  silent m -> (forall a, Q (Ret a) w []) -> wpc m w Q.
Proof.
  intros Hs HQ. destruct (Hs w) as (a & t & E & Ht).
  unfold wpc, outcome_of, world_of, controls, trace_of.
  rewrite E; simpl. rewrite Ht. apply HQ.
Qed.

Lemma silent_print s : silent (print s).
Proof. intros w. exists tt, [Print s]. split; reflexivity. Qed.

Lemma silent_ret {A} (a : A) : silent (ret a).
Proof. intros w. exists a, []. split; reflexivity. Qed.

Lemma silent_bind {A B} (m : M A) (k : A -> M B) :
  silent m -> (forall a, silent (k a)) -> silent (bind m k).
Proof.
  intros Hm Hk w. destruct (Hm w) as (a & t1 & E1 & Ht1).
  destruct (Hk a w) as (b & t2 & E2 & Ht2).
  exists b, (t1 ++ t2). unfold bind. rewrite E1, E2. split; [reflexivity|].
  rewrite control_app, Ht1, Ht2. reflexivity.
Qed.

Lemma silent_for_each {A} (xs : list A) body :
  (forall x, silent (body x)) -> silent (for_each xs body).
Proof.
  intros Hb. induction xs as [|x xs IH]; simpl.
  - apply silent_ret.
  - apply silent_bind; [apply Hb | intros _; exact IH].
Qed.

(** ** The command runner *)

Section Runner.

Context (T : tools).

(** The runner returns whether the return code is zero, in the world the
    command leaves, whatever [check] is; its only control event is the
    call. *)
Lemma run_command_run command description check w :
  exists t,
    run_command T command description check w
    = (Ret (returncode (shell T command w).1 =? 0), (shell T command w).2, t)
    /\ control t = [Call command (returncode (shell T command w).1)].
Proof.
  unfold run_command, bind, try_except, subprocess_run, print.
  destruct (shell T command w) as [[rc out err] w']; simpl.
  destruct check, (rc =? 0) eqn:Hrc; simpl; rewrite ?Hrc; simpl;
    repeat match goal with
           | |- context [when ?b _ _] => destruct b; simpl
           end;
    eexists; split; reflexivity.
Qed.

Lemma wpc_run_command command description check w Q :
  Q (Ret (returncode (shell T command w).1 =? 0)) (shell T command w).2
    [Call command (returncode (shell T command w).1)] ->
  wpc (run_command T command description check) w Q.
Proof.
  intros HQ. destruct (run_command_run command description check w) as (t & E & Ht).
  unfold wpc, outcome_of, world_of, controls, trace_of.
  rewrite E; simpl. rewrite Ht. exact HQ.
Qed.

End Runner.

(** ** The command runner on output that may not decode *)

(** Over tools whose output decodes, the runner is the runner above. *)
Lemma run_command_decoded T command description check w :
  Undecoded.run_command (Undecoded.decoded T) command description check w
  = run_command T command description check w.
Proof.
  unfold Undecoded.run_command, run_command, bind, try_except,
    Undecoded.subprocess_run, subprocess_run, Undecoded.decoded, print.
  cbn [Undecoded.raw_shell Undecoded.raw_str_called_process_error].
  destruct (shell T command w) as [[rc out err] w'].
  cbn [Undecoded.raw_returncode Undecoded.raw_stdout Undecoded.raw_stderr
       returncode stdout stderr].
  destruct (check && negb (rc =? 0)); reflexivity.
Qed.

Lemma raw_run_command_decodes R command description check w out err :
  Undecoded.raw_stdout (Undecoded.raw_shell R command w).1 = Some out ->
  Undecoded.raw_stderr (Undecoded.raw_shell R command w).1 = Some err ->
  Undecoded.run_command R command description check w
  = (Ret (Undecoded.raw_returncode (Undecoded.raw_shell R command w).1 =? 0),
     (Undecoded.raw_shell R command w).2,
     Print ("🔧 " +:+ description +:+ "...")
     :: Call command (Undecoded.raw_returncode (Undecoded.raw_shell R command w).1)
     :: report (Undecoded.raw_str_called_process_error R) command description check
          (Undecoded.raw_returncode (Undecoded.raw_shell R command w).1) out err).
Proof.
  unfold Undecoded.run_command, bind, try_except, Undecoded.subprocess_run, print, report.
  destruct (Undecoded.raw_shell R command w) as [[rc o e] w'].
  cbn [fst snd Undecoded.raw_returncode Undecoded.raw_stdout Undecoded.raw_stderr].
  intros -> ->.
  destruct check, (rc =? 0) eqn:Hrc; cbn [andb negb returncode stdout stderr];
    rewrite ?Hrc; cbn [returncode stdout stderr];
    repeat match goal with
           | |- context [when ?b _ _] => destruct b; cbn [when]
           end;
    reflexivity.
Qed.

Lemma raw_run_command_undecodable R command description check w :
  Undecoded.raw_stdout (Undecoded.raw_shell R command w).1 = None
  \/ Undecoded.raw_stderr (Undecoded.raw_shell R command w).1 = None ->
  Undecoded.run_command R command description check w
  = (Raise UnicodeDecodeError, (Undecoded.raw_shell R command w).2,
     [Print ("🔧 " +:+ description +:+ "...");
      Call command (Undecoded.raw_returncode (Undecoded.raw_shell R command w).1)]).
Proof.
  unfold Undecoded.run_command, bind, try_except, Undecoded.subprocess_run, print.
  destruct (Undecoded.raw_shell R command w) as [[rc o e] w'].
  cbn [fst snd Undecoded.raw_returncode Undecoded.raw_stdout Undecoded.raw_stderr].
  intros [->| ->]; [|destruct o]; reflexivity.
Qed.

Lemma control_report T_str command description check rc out err :
  control (report T_str command description check rc out err) = [].
Proof.
  unfold report.
  destruct (rc =? 0), check;
    repeat match goal with
           | |- context [if ?b then _ else _] => destruct b
           end; reflexivity.
Qed.

Lemma nonempty_strip s : nonempty (strip s) = true -> nonempty s = true.
Proof. destruct s; [discriminate | reflexivity]. Qed.

(** ** Cleaning *)

Lemma rm_dirs_lookup names d k :
  rm_dirs names d !! k =
  match d !! k with
  | Some (Dir ch) => if bool_decide (k ∈ names) then None else Some (Dir ch)
  | x => x
  end.
Proof.
  revert d. induction names as [|n names IH]; intros d.
  - simpl. destruct (d !! k) as [[c|ch]|]; reflexivity.
  - unfold rm_dirs in *. simpl. rewrite IH.
    unfold remove_if_dir.
    destruct (decide (k = n)) as [->|Hne].
    + destruct (d !! n) as [[c|ch]|] eqn:En; rewrite ?lookup_delete_eq, ?En; try reflexivity.
      rewrite bool_decide_eq_true_2 by set_solver. reflexivity.
    + assert (Hin : bool_decide (k ∈ n :: names) = bool_decide (k ∈ names)).
      { apply bool_decide_ext. rewrite elem_of_cons. tauto. }
      rewrite Hin.
      destruct (d !! n) as [[c|ch]|] eqn:En; rewrite ?lookup_delete_ne by congruence;
        reflexivity.
Qed.

Lemma rm_dirs_id names d :
  (forall n ch, n ∈ names -> d !! n <> Some (Dir ch)) -> rm_dirs names d = d.
Proof.
  intros H. apply map_eq. intros k. rewrite rm_dirs_lookup.
  destruct (d !! k) as [[c|ch]|] eqn:Ek; try reflexivity.
  case_bool_decide as Hin; [|reflexivity].
  exfalso. exact (H k ch Hin Ek).
Qed.

Lemma egg_loop names d s :
  exists t,
    for_each names (fun path =>
      d <- path_is_dir [path] ;;
      when d (print ("🧹 Removing " +:+ path) ;; rmtree path)) (World d s)
    = (Ret tt, World (rm_dirs names d) s, t)
    /\ control t = []
    /\ ((forall n ch, n ∈ names -> d !! n <> Some (Dir ch)) -> t = []).
Proof.
  revert d. induction names as [|n names IH]; intros d.
  - exists []. repeat split; reflexivity.
  - cbn [for_each]. unfold rm_dirs. cbn [foldl]. fold (rm_dirs names (remove_if_dir d n)).
    destruct (IH (remove_if_dir d n)) as (t & E & Ht & Hid).
    unfold bind at 1. unfold bind at 1. unfold path_is_dir at 1. cbn [resolve cwd].
    unfold remove_if_dir in *.
    destruct (d !! n) as [[c|ch]|] eqn:En; cbn [is_dir_node when].
    + unfold ret at 1. rewrite E. exists t. repeat split; [exact Ht|].
      intros H. apply Hid. intros; apply H; set_solver.
    + unfold bind at 1. unfold print at 1. unfold rmtree at 1. cbn [cwd stdin].
      rewrite En. rewrite E. eexists. repeat split.
      * simpl. exact Ht.
      * intros H. exfalso. apply (H n ch); [set_solver | exact En].
    + unfold ret at 1. rewrite E. exists t. repeat split; [exact Ht|].
      intros H. apply Hid. intros; apply H; set_solver.
Qed.

Lemma remove_entry_run name w :
  exists t,
    (e <- path_exists [name] ;;
     when e
       (print ("🧹 Removing " +:+ name) ;;
        d <- path_is_dir [name] ;;
        if d then rmtree name else unlink name)) w
    = (Ret tt, World (delete name (cwd w)) (stdin w), t)
    /\ control t = []
    /\ (cwd w !! name = None -> t = []).
Proof.
  destruct w as [d s].
  unfold bind, path_exists, path_is_dir, print, rmtree, unlink. cbn [resolve cwd stdin].
  destruct (d !! name) as [[c|ch]|] eqn:En.
  - rewrite bool_decide_eq_true_2 by eauto. simpl.
    rewrite En. simpl. rewrite En. eexists. repeat split; try reflexivity; discriminate.
  - rewrite bool_decide_eq_true_2 by eauto. simpl.
    rewrite En. simpl. rewrite En. eexists. repeat split; try reflexivity; discriminate.
  - rewrite bool_decide_eq_false_2 by (intros [? ?]; discriminate). simpl.
    rewrite delete_id by exact En. eexists. repeat split; reflexivity.
Qed.

Lemma elem_of_glob suffix (d : gmap string node) name :
  name ∈ filter (fun name => ends_with suffix name = true) (map_to_list d).*1
  <-> ends_with suffix name = true /\ is_Some (d !! name).
Proof.
  rewrite list_elem_of_filter, list_elem_of_fmap. split.
  - intros [He ([k n] & -> & Hin)]. split; [exact He|].
    apply elem_of_map_to_list in Hin. eauto.
  - intros [He [n Hn]]. split; [exact He|].
    exists (name, n). split; [reflexivity|]. apply elem_of_map_to_list. exact Hn.
Qed.

Lemma cleaned_lookup d name :
  cleaned d !! name =
  match d !! name with
  | Some n => if kept name n then Some n else None
  | None => None
  end.
Proof.
  unfold cleaned. rewrite map_lookup_filter.
  destruct (d !! name) as [n|]; [|reflexivity]. simpl.
  destruct (kept name n); reflexivity.
Qed.

Lemma cleaned_idemp d : cleaned (cleaned d) = cleaned d.
Proof.
  apply map_eq. intros k. rewrite !cleaned_lookup.
  destruct (d !! k) as [n|]; [|reflexivity].
  destruct (kept k n) eqn:Hk; [rewrite Hk|]; reflexivity.
Qed.

Lemma cleaned_id d :
  d !! "build" = None -> d !! "dist" = None ->
  (forall name ch, ends_with ".egg-info" name = true -> d !! name <> Some (Dir ch)) ->
  cleaned d = d.
Proof.
  intros Hb Hd He. apply map_eq. intros k. rewrite cleaned_lookup.
  destruct (d !! k) as [n|] eqn:Ek; [|reflexivity].
  assert (Hk : kept k n = true); [|rewrite Hk; reflexivity].
  unfold kept.
  destruct (String.eqb_spec k "build") as [->|_]; [congruence|].
  destruct (String.eqb_spec k "dist") as [->|_]; [congruence|].
  destruct (ends_with ".egg-info" k) eqn:Hs; [|reflexivity].
  destruct n as [c|ch]; [reflexivity|]. exfalso. exact (He k ch Hs Ek).
Qed.

(** The run of the clean step: it returns, and leaves the cleaned
    directory; it prints nothing when there was nothing to remove. *)
Lemma clean_run w :
  exists t,
    clean_build_artifacts w = (Ret tt, World (cleaned (cwd w)) (stdin w), t)
    /\ control t = []
    /\ (cleaned (cwd w) = cwd w -> t = []).
Proof.
  unfold clean_build_artifacts. cbn [for_each].
  change (String.eqb "build" "*.egg-info") with false.
  change (String.eqb "dist" "*.egg-info") with false.
  change (String.eqb "*.egg-info" "*.egg-info") with true.
  cbv iota zeta.
  destruct (remove_entry_run "build" w) as (t1 & E1 & Ht1 & Hn1).
  set (w1 := World (delete "build" (cwd w)) (stdin w)) in *.
  destruct (remove_entry_run "dist" w1) as (t2 & E2 & Ht2 & Hn2).
  set (w2 := World (delete "dist" (cwd w1)) (stdin w1)) in *.
  set (names := filter (fun name => ends_with ".egg-info" name = true)
                  (map_to_list (cwd w2)).*1).
  destruct (egg_loop names (cwd w2) (stdin w2)) as (t3 & E3 & Ht3 & Hn3).
  assert (Hfinal : rm_dirs names (cwd w2) = cleaned (cwd w)).
  { apply map_eq. intros k. rewrite rm_dirs_lookup, cleaned_lookup.
    subst w2 w1. cbn [cwd]. unfold kept.
    destruct (decide (k = "dist")) as [->|Hd].
    { rewrite lookup_delete_eq. destruct (cwd w !! "dist"); reflexivity. }
    rewrite lookup_delete_ne by congruence.
    destruct (decide (k = "build")) as [->|Hb].
    { rewrite lookup_delete_eq. destruct (cwd w !! "build"); reflexivity. }
    rewrite lookup_delete_ne by congruence.
    rewrite (proj2 (String.eqb_neq _ _) Hd), (proj2 (String.eqb_neq _ _) Hb). cbn [orb].
    destruct (cwd w !! k) as [[c|ch]|] eqn:Ek; cbn [is_dir_node];
      rewrite ?andb_false_r; cbn [negb]; try reflexivity.
    rewrite andb_true_r.
    case_bool_decide as Hin; subst names.
    - apply elem_of_glob in Hin as [-> _]. reflexivity.
    - destruct (ends_with ".egg-info" k) eqn:He; [|reflexivity].
      exfalso. apply Hin. apply elem_of_glob. split; [exact He|].
      cbn [cwd]. rewrite !lookup_delete_ne by congruence. eauto. }
  unfold bind at 1. rewrite E1.
  unfold bind at 1. rewrite E2.
  unfold bind at 1. unfold bind at 1. unfold glob_suffix at 1. fold names.
  change (World (cwd w2) (stdin w2)) with w2 in E3.
  rewrite E3. unfold ret. rewrite Hfinal.
  eexists. split; [reflexivity|]. split.
  - rewrite !control_app, Ht1, Ht2, Ht3. reflexivity.
  - intros Hid.
    assert (Hk : forall k n, cwd w !! k = Some n -> kept k n = true).
    { intros k n Hkn. pose proof (cleaned_lookup (cwd w) k) as Hl.
      rewrite Hid, Hkn in Hl. destruct (kept k n); [reflexivity|discriminate]. }
    assert (Hnone : forall k, (String.eqb k "build" || String.eqb k "dist") = true ->
                              cwd w !! k = None).
    { intros k Hkk. destruct (cwd w !! k) as [n|] eqn:Ek; [|reflexivity].
      apply Hk in Ek. unfold kept in Ek. rewrite Hkk in Ek. discriminate. }
    rewrite Hn1 by (apply Hnone; reflexivity).
    rewrite Hn2 by (subst w1; cbn [cwd]; rewrite lookup_delete_ne by discriminate;
                    apply Hnone; reflexivity).
    rewrite Hn3; [reflexivity|].
    intros n ch Hin Hn. subst names. apply elem_of_glob in Hin as [He _].
    subst w2 w1. cbn [cwd] in Hn.
    destruct (decide (n = "dist")) as [->|Hd]; [rewrite lookup_delete_eq in Hn; discriminate|].
    rewrite lookup_delete_ne in Hn by congruence.
    destruct (decide (n = "build")) as [->|Hb]; [rewrite lookup_delete_eq in Hn; discriminate|].
    rewrite lookup_delete_ne in Hn by congruence.
    apply Hk in Hn. unfold kept in Hn. rewrite He in Hn. cbn [is_dir_node] in Hn.
    rewrite andb_true_r, orb_true_r in Hn. discriminate.
Qed.

Lemma wpc_clean w Q :
  Q (Ret tt) (World (cleaned (cwd w)) (stdin w)) [] ->
  wpc clean_build_artifacts w Q.
Proof.
  intros HQ. destruct (clean_run w) as (t & E & Ht & _).
  unfold wpc, outcome_of, world_of, controls, trace_of.
  rewrite E; simpl. rewrite Ht. exact HQ.
Qed.

(** Cleaning leaves the two version sources as they are. *)
Lemma cleaned_manifest_version d : manifest_version (cleaned d) = manifest_version d.
Proof.
  unfold manifest_version, file_version. cbn [resolve].
  rewrite cleaned_lookup. destruct (d !! "pyproject.toml") as [n|]; reflexivity.
Qed.

Lemma cleaned_marker_version d : marker_version (cleaned d) = marker_version d.
Proof.
  unfold marker_version, file_version. cbn [resolve].
  rewrite cleaned_lookup. destruct (d !! "ragpack") as [n|]; reflexivity.
Qed.

(** An optional clean step, seen from the stages that follow it. *)
Lemma wpc_when_clean (b : bool) w Q :
  (forall d',
     manifest_version d' = manifest_version (cwd w) ->
     marker_version d' = marker_version (cwd w) ->
     Q (Ret tt) (World d' (stdin w)) []) ->
  wpc (when b clean_build_artifacts) w Q.
Proof.
  intros HQ. apply wpc_when; intros _.
  - apply wpc_clean. apply HQ;
      [apply cleaned_manifest_version | apply cleaned_marker_version].
  - destruct w as [d s]. apply HQ; reflexivity.
Qed.

(** ** Cleaning a directory with symbolic links *)

Section LinksProofs.

Import Links.
#[local] Open Scope links_scope.

Lemma is_dir_at_delete_eq d name : is_dir_at (delete name d) name = false.
Proof. unfold is_dir_at, target_of. rewrite lookup_delete_eq. reflexivity. Qed.

Lemma is_dir_at_delete_ne d name k :
  k <> name -> is_dir_at (delete name d) k = is_dir_at d k.
Proof.
  intros Hne. unfold is_dir_at, target_of. rewrite lookup_delete_ne by congruence.
  reflexivity.
Qed.


(** What is a directory under a name is a directory itself or a link to
    one. *)
Lemma is_dir_at_cases d name :
  is_dir_at d name = true ->
  (exists ch, d !! name = Some (Plain (Dir ch)))
  \/ (exists ch, d !! name = Some (Symlink (Some (Dir ch)))).
Proof.
  unfold is_dir_at, target_of.
  destruct (d !! name) as [[[c|ch]|[[c|ch]|]]|]; cbn; try discriminate; eauto.
Qed.

Lemma drop_if_exists_lookup d name k :
  drop_if_exists d name !! k
  = if bool_decide (k = name) && exists_at d name then None else d !! k.
Proof.
  unfold drop_if_exists. case_bool_decide as Hk; cbn [andb].
  - subst k. destruct (exists_at d name); [apply lookup_delete_eq | reflexivity].
  - destruct (exists_at d name); [|reflexivity].
    rewrite lookup_delete_ne by congruence. reflexivity.
Qed.

Lemma drop_dirs_lookup names d k :
  drop_dirs names d !! k
  = if bool_decide (k ∈ names) && is_dir_at d k then None else d !! k.
Proof.
  revert d. induction names as [|n names IH]; intros d.
  - reflexivity.
  - unfold drop_dirs in *. cbn [foldl]. rewrite IH. unfold drop_if_dir.
    destruct (decide (k = n)) as [->|Hne].
    + rewrite (bool_decide_eq_true_2 (n ∈ n :: names)) by left. cbn [andb].
      destruct (is_dir_at d n) eqn:Hd.
      * rewrite is_dir_at_delete_eq, andb_false_r. apply lookup_delete_eq.
      * rewrite Hd, andb_false_r. reflexivity.
    + assert (Hin : bool_decide (k ∈ n :: names) = bool_decide (k ∈ names)).
      { apply bool_decide_ext. rewrite elem_of_cons. tauto. }
      rewrite Hin.
      destruct (is_dir_at d n); [|reflexivity].
      rewrite is_dir_at_delete_ne by exact Hne.
      rewrite lookup_delete_ne by congruence. reflexivity.
Qed.

Lemma elem_of_glob_names {V} suffix (d : gmap string V) name :
  name ∈ filter (fun name => ends_with suffix name = true) (map_to_list d).*1
  <-> ends_with suffix name = true /\ is_Some (d !! name).
Proof.
  rewrite list_elem_of_filter, list_elem_of_fmap. split.
  - intros [He ([k n] & -> & Hin)]. split; [exact He|].
    apply elem_of_map_to_list in Hin. eauto.
  - intros [He [n Hn]]. split; [exact He|].
    exists (name, n). split; [reflexivity|]. apply elem_of_map_to_list. exact Hn.
Qed.

Lemma left_over_lookup d name :
  left_over d !! name =
  match d !! name with
  | Some e => if taken name e then None else Some e
  | None => None
  end.
Proof.
  unfold left_over. rewrite map_lookup_filter.
  destruct (d !! name) as [e|]; [|reflexivity]. cbn.
  destruct (taken name e); reflexivity.
Qed.

Lemma left_over_idemp d : left_over (left_over d) = left_over d.
Proof.
  apply map_eq. intros k. rewrite !left_over_lookup.
  destruct (d !! k) as [e|]; [|reflexivity].
  destruct (taken k e) eqn:Hk; [|rewrite Hk]; reflexivity.
Qed.

(** The loop over the metadata entries, when none that is a directory is
    a link: it removes the directories among them and prints a line for
    each. *)
Lemma links_egg_loop names d s :
  (forall n e, n ∈ names -> d !! n = Some e -> linked_dir e = false) ->
  exists t,
    for_each names (fun path =>
      d <- path_is_dir path ;;
      when d (print ("🧹 Removing " +:+ path) ;; rmtree path)) (World d s)
    = (Ret tt, World (drop_dirs names d) s, t)
    /\ forall e, e ∈ t <->
         exists n, n ∈ names /\ is_dir_at d n = true
                   /\ e = Print ("🧹 Removing " +:+ n).
Proof.
  revert d. induction names as [|n names IH]; intros d Hl.
  - exists []. split; [reflexivity|]. intros e. split.
    + intros H. inversion H.
    + intros (n & H & _). inversion H.
  - cbn [for_each]. unfold drop_dirs. cbn [foldl]. fold (drop_dirs names (drop_if_dir d n)).
    unfold bind at 1. unfold bind at 1. unfold path_is_dir at 1. cbn [cwd].
    unfold drop_if_dir.
    destruct (is_dir_at d n) eqn:Hd; cbn [when].
    + destruct (is_dir_at_cases d n Hd) as [[ch En]|[ch En]].
      2:{ exfalso. specialize (Hl n _ ltac:(left) En). discriminate Hl. }
      destruct (IH (delete n d)) as (t & E & Ht).
      { intros m e Hm He. apply lookup_delete_Some in He as [_ He].
        apply (Hl m e); [right; exact Hm | exact He]. }
      unfold bind at 1. unfold print at 1. unfold rmtree at 1. cbn [cwd stdin].
      rewrite En. rewrite E. eexists. split; [reflexivity|].
      intros e. cbn [app]. rewrite elem_of_cons, Ht. split.
      * intros [->|(m & Hm & Hdm & He)].
        -- exists n. repeat split; [left | exact Hd].
        -- destruct (decide (m = n)) as [->|Hne].
           ++ rewrite is_dir_at_delete_eq in Hdm. discriminate.
           ++ rewrite is_dir_at_delete_ne in Hdm by exact Hne.
              exists m. repeat split; [right; exact Hm | exact Hdm | exact He].
      * intros (m & Hm & Hdm & He).
        destruct (decide (m = n)) as [->|Hne]; [left; exact He|].
        right. exists m. rewrite is_dir_at_delete_ne by exact Hne.
        apply elem_of_cons in Hm as [->|Hm]; [contradiction|]. auto.
    + destruct (IH d) as (t & E & Ht).
      { intros m e Hm He. apply (Hl m e); [right; exact Hm | exact He]. }
      unfold ret at 1. rewrite E. exists t. split; [reflexivity|].
      intros e. rewrite Ht. split; intros (m & Hm & Hdm & He); exists m.
      * repeat split; [right; exact Hm | exact Hdm | exact He].
      * repeat split; [|exact Hdm|exact He].
        apply elem_of_cons in Hm as [->|Hm]; [congruence | exact Hm].
Qed.


(** The step for [build] and for [dist], on an entry that is not a link
    to a directory: what exists under the name is removed, whatever it
    is. *)
Lemma links_remove_entry_run name w :
  (forall e, cwd w !! name = Some e -> linked_dir e = false) ->
  (e <- path_exists name ;;
   when e
     (print ("🧹 Removing " +:+ name) ;;
      d <- path_is_dir name ;;
      if d then rmtree name else unlink name)) w
  = (Ret tt, World (drop_if_exists (cwd w) name) (stdin w),
     if exists_at (cwd w) name then [Print ("🧹 Removing " +:+ name)] else []).
Proof.
  intros Hl. destruct w as [d s].
  unfold bind, path_exists, path_is_dir, print, rmtree, unlink, drop_if_exists,
    exists_at, is_dir_at, target_of.
  cbn [cwd stdin].
  destruct (d !! name) as [[[c|ch]|[[c|ch]|]]|] eqn:En; cbn [follow].
  - rewrite bool_decide_eq_true_2 by eauto. cbn. rewrite En. cbn. rewrite En. reflexivity.
  - rewrite bool_decide_eq_true_2 by eauto. cbn. rewrite En. cbn. rewrite En. reflexivity.
  - rewrite bool_decide_eq_true_2 by eauto. cbn. rewrite En. cbn. rewrite En. reflexivity.
  - specialize (Hl _ En). discriminate Hl.
  - rewrite bool_decide_eq_false_2 by (intros [? ?]; discriminate). reflexivity.
  - rewrite bool_decide_eq_false_2 by (intros [? ?]; discriminate). reflexivity.
Qed.



Lemma exists_at_drop_other d name k :
  k <> name -> exists_at (drop_if_exists d name) k = exists_at d k.
Proof.
  intros Hne. unfold exists_at at 1 2, target_of. rewrite drop_if_exists_lookup.
  rewrite (bool_decide_eq_false_2 (k = name)) by exact Hne. reflexivity.
Qed.

Lemma exists_at_lookup d name :
  exists_at d name
  = match d !! name with
    | Some e => bool_decide (is_Some (follow e))
    | None => false
    end.
Proof.
  unfold exists_at, target_of. destruct (d !! name); [reflexivity|].
  apply bool_decide_eq_false_2. intros [? ?]; discriminate.
Qed.

(** What is left after the steps for [build] and [dist]. *)
Lemma cleared_lookup d k :
  drop_if_exists (drop_if_exists d "build") "dist" !! k
  = match d !! k with
    | Some e =>
        if (String.eqb k "build" || String.eqb k "dist")
           && bool_decide (is_Some (follow e))
        then None else Some e
    | None => None
    end.
Proof.
  rewrite !drop_if_exists_lookup, (exists_at_drop_other d "build" "dist") by discriminate.
  rewrite !exists_at_lookup.
  destruct (String.eqb_spec k "build") as [->|Hb].
  { rewrite (bool_decide_eq_false_2 ("build" = "dist")) by discriminate.
    rewrite (bool_decide_eq_true_2 ("build" = "build")) by reflexivity. cbn [andb orb].
    destruct (d !! "build") as [e|]; reflexivity. }
  rewrite (bool_decide_eq_false_2 (k = "build")) by exact Hb.
  destruct (String.eqb_spec k "dist") as [->|Hd].
  { rewrite (bool_decide_eq_true_2 ("dist" = "dist")) by reflexivity. cbn [andb orb].
    destruct (d !! "dist") as [e|]; reflexivity. }
  rewrite (bool_decide_eq_false_2 (k = "dist")) by exact Hd. cbn [andb orb].
  destruct (d !! k); reflexivity.
Qed.

(** What is left after the two named entries and the metadata
    directories were removed. *)
Lemma drop_all_left_over d :
  drop_dirs (filter (fun name => ends_with ".egg-info" name = true)
               (map_to_list (drop_if_exists (drop_if_exists d "build") "dist")).*1)
    (drop_if_exists (drop_if_exists d "build") "dist")
  = left_over d.
Proof.
  apply map_eq. intros k. rewrite drop_dirs_lookup, left_over_lookup.
  match goal with |- context [bool_decide (k ∈ ?l)] => set (names := l) end.
  unfold is_dir_at, target_of. rewrite cleared_lookup. unfold taken.
  destruct (d !! k) as [e|] eqn:Ek; [|rewrite andb_false_r; reflexivity].
  destruct (String.eqb_spec k "build") as [->|Hb].
  { cbn [orb andb ends_with]. 
    assert (Hn : bool_decide ("build" ∈ names) = false).
    { apply bool_decide_eq_false_2. intros Hin. subst names.
      apply elem_of_glob_names in Hin as [Hc _]. discriminate Hc. }
    rewrite Hn. cbn [andb].
    change (ends_with ".egg-info" "build") with false. cbn [andb].
    rewrite orb_false_r. reflexivity. }
  destruct (String.eqb_spec k "dist") as [->|Hd].
  { assert (Hn : bool_decide ("dist" ∈ names) = false).
    { apply bool_decide_eq_false_2. intros Hin. subst names.
      apply elem_of_glob_names in Hin as [Hc _]. discriminate Hc. }
    rewrite Hn. cbn [andb orb].
    change (ends_with ".egg-info" "dist") with false. cbn [andb].
    rewrite orb_false_r. reflexivity. }
  cbn [orb andb].
  destruct (ends_with ".egg-info" k) eqn:He.
  - rewrite (bool_decide_eq_true_2 (k ∈ names)).
    + reflexivity.
    + subst names. apply elem_of_glob_names. split; [exact He|].
      rewrite cleared_lookup, Ek.
      rewrite (proj2 (String.eqb_neq _ _) Hb), (proj2 (String.eqb_neq _ _) Hd). eauto.
  - rewrite (bool_decide_eq_false_2 (k ∈ names)); [reflexivity|].
    intros Hin. subst names. apply elem_of_glob_names in Hin as [Hc _]. congruence.
Qed.

Lemma no_linked_dir_left_over d : no_linked_dir d -> no_linked_dir (left_over d).
Proof.
  intros H name e He. apply (H name e).
  rewrite left_over_lookup in He. destruct (d !! name) as [x|]; [|discriminate].
  destruct (taken name x); [discriminate | exact He].
Qed.

(** The run of the clean step when no entry it looks at is a link to a
    directory: it returns, leaves what it does not take away, and prints
    a line for each entry it takes away. *)
Lemma links_clean_run w :
  no_linked_dir (cwd w) ->
  exists t,
    clean_build_artifacts w = (Ret tt, World (left_over (cwd w)) (stdin w), t)
    /\ forall e, e ∈ t <->
         exists name x, cwd w !! name = Some x /\ taken name x = true
                        /\ e = Print ("🧹 Removing " +:+ name).
Proof.
  intros Hno.
  unfold clean_build_artifacts. cbn [for_each].
  change (String.eqb "build" "*.egg-info") with false.
  change (String.eqb "dist" "*.egg-info") with false.
  change (String.eqb "*.egg-info" "*.egg-info") with true.
  cbv iota zeta.
  pose proof (links_remove_entry_run "build" w) as E1.
  specialize (E1 ltac:(intros e He; apply (Hno "build" e He); reflexivity)).
  set (w1 := World (drop_if_exists (cwd w) "build") (stdin w)) in *.
  pose proof (links_remove_entry_run "dist" w1) as E2.
  assert (H12 : cwd w1 !! "dist" = cwd w !! "dist").
  { subst w1. cbn [cwd]. rewrite drop_if_exists_lookup.
    rewrite (bool_decide_eq_false_2 ("dist" = "build")) by discriminate. reflexivity. }
  specialize (E2 ltac:(intros e He; rewrite H12 in He; apply (Hno "dist" e He); reflexivity)).
  set (w2 := World (drop_if_exists (cwd w1) "dist") (stdin w1)) in *.
  set (names := filter (fun name => ends_with ".egg-info" name = true)
                  (map_to_list (cwd w2)).*1).
  assert (Hsub : forall k e, cwd w2 !! k = Some e -> cwd w !! k = Some e).
  { intros k e. subst w2 w1. cbn [cwd]. rewrite cleared_lookup.
    destruct (cwd w !! k) as [x|]; [|discriminate].
    match goal with |- context [if ?b then _ else _] => destruct b end;
      [discriminate | exact id]. }
  destruct (links_egg_loop names (cwd w2) (stdin w2)) as (t3 & E3 & Ht3).
  { intros n e Hin He. subst names. apply elem_of_glob_names in Hin as [Hs _].
    apply (Hno n e (Hsub n e He)). unfold targeted. rewrite Hs. apply orb_true_r. }
  change (World (cwd w2) (stdin w2)) with w2 in E3.
  unfold bind at 1. rewrite E1.
  unfold bind at 1. rewrite E2.
  unfold bind at 1. unfold bind at 1. unfold glob_suffix at 1. fold names.
  rewrite E3. unfold ret.
  assert (Hfinal : drop_dirs names (cwd w2) = left_over (cwd w)).
  { subst names w2 w1. cbn [cwd]. apply drop_all_left_over. }
  rewrite Hfinal.
  eexists. split; [reflexivity|].
  intros e. cbn [app]. rewrite app_nil_r. rewrite !elem_of_app, Ht3.
  clear E1 E2 E3 Ht3 Hfinal.
  assert (Hx2 : exists_at (cwd w1) "dist" = exists_at (cwd w) "dist").
  { unfold exists_at, target_of. rewrite H12. reflexivity. }
  rewrite Hx2. rewrite !exists_at_lookup.
  split.
  - intros [H|[H|H]].
    + destruct (cwd w !! "build") as [x|] eqn:Eb; [|inversion H].
      destruct (bool_decide (is_Some (follow x))) eqn:Hx; [|inversion H].
      apply list_elem_of_singleton in H. exists "build", x.
      split; [exact Eb|]. split; [|exact H]. unfold taken. rewrite Hx. reflexivity.
    + destruct (cwd w !! "dist") as [x|] eqn:Eb; [|inversion H].
      destruct (bool_decide (is_Some (follow x))) eqn:Hx; [|inversion H].
      apply list_elem_of_singleton in H. exists "dist", x.
      split; [exact Eb|]. split; [|exact H]. unfold taken. rewrite Hx. reflexivity.
    + destruct H as (n & Hin & Hd & He). subst names.
      apply elem_of_glob_names in Hin as [Hs [x Hx]].
      exists n, x. split; [exact (Hsub n x Hx)|]. split; [|exact He].
      unfold taken. rewrite Hs. unfold is_dir_at, target_of in Hd. rewrite Hx in Hd.
      rewrite Hd. apply orb_true_r.
  - intros (name & x & Ex & Ht & ->). unfold taken in Ht.
    apply orb_true_iff in Ht as [Ht|Ht]; apply andb_true_iff in Ht as [Hn Hf].
    + apply orb_true_iff in Hn as [Hn|Hn]; apply String.eqb_eq in Hn; subst name.
      * left. rewrite Ex, Hf. left.
      * right. left. rewrite Ex, Hf. left.
    + right. right. exists name.
      assert (Hb : name <> "build") by (intros ->; discriminate Hn).
      assert (Hdi : name <> "dist") by (intros ->; discriminate Hn).
      assert (Hl : cwd w2 !! name = Some x).
      { subst w2 w1. cbn [cwd]. rewrite cleared_lookup, Ex.
        rewrite (proj2 (String.eqb_neq _ _) Hb), (proj2 (String.eqb_neq _ _) Hdi).
        reflexivity. }
      repeat split.
      * subst names. apply elem_of_glob_names. split; [exact Hn|]. rewrite Hl. eauto.
      * unfold is_dir_at, target_of. rewrite Hl. exact Hf.
Qed.

End LinksProofs.

Lemma exists_at_left_over d name :
  (String.eqb name "build" || String.eqb name "dist") = true ->
  Links.exists_at (left_over d) name = false.
Proof.
  intros Hn. rewrite exists_at_lookup, left_over_lookup.
  destruct (d !! name) as [x|]; [|reflexivity].
  destruct (taken name x) eqn:Ht; [reflexivity|].
  unfold taken in Ht. rewrite Hn in Ht. cbn [andb] in Ht.
  apply orb_false_iff in Ht as [Ht _]. exact Ht.
Qed.

Lemma is_dir_at_left_over d name :
  ends_with ".egg-info" name = true -> Links.is_dir_at (left_over d) name = false.
Proof.
  intros Hs. unfold Links.is_dir_at, Links.target_of. rewrite left_over_lookup.
  destruct (d !! name) as [x|]; [|reflexivity].
  destruct (taken name x) eqn:Ht; [reflexivity|].
  unfold taken in Ht. rewrite Hs in Ht. cbn [andb] in Ht.
  apply orb_false_iff in Ht as [_ Ht]. exact Ht.
Qed.

Lemma left_over_id d :
  Links.exists_at d "build" = false ->
  Links.exists_at d "dist" = false ->
  (forall name, ends_with ".egg-info" name = true -> Links.is_dir_at d name = false) ->
  left_over d = d.
Proof.
  intros Hb Hd He. apply map_eq. intros k. rewrite left_over_lookup.
  destruct (d !! k) as [x|] eqn:Ek; [|reflexivity].
  assert (Hk : taken k x = false); [|rewrite Hk; reflexivity].
  unfold taken. apply orb_false_iff. split.
  - destruct (String.eqb_spec k "build") as [->|_].
    { rewrite exists_at_lookup, Ek in Hb. exact Hb. }
    destruct (String.eqb_spec k "dist") as [->|_]; [|reflexivity].
    rewrite exists_at_lookup, Ek in Hd. exact Hd.
  - destruct (ends_with ".egg-info" k) eqn:Hs; [|reflexivity].
    specialize (He k Hs). unfold Links.is_dir_at, Links.target_of in He.
    rewrite Ek in He. exact He.
Qed.

Lemma no_linked_dir_plain d : no_linked_dir (Links.Plain <$> d).
Proof.
  intros name e He _. rewrite lookup_fmap in He.
  destruct (d !! name); [|discriminate]. injection He as <-. reflexivity.
Qed.

Lemma left_over_plain d : left_over (Links.Plain <$> d) = Links.Plain <$> cleaned d.
Proof.
  apply map_eq. intros k.
  rewrite left_over_lookup, !lookup_fmap, cleaned_lookup.
  destruct (d !! k) as [n|]; [|reflexivity]. cbn [fmap option_fmap option_map].
  unfold taken, kept. cbn [Links.follow].
  rewrite (bool_decide_eq_true_2 (is_Some (Some n))) by eauto.
  rewrite andb_true_r.
  destruct (String.eqb k "build" || String.eqb k "dist"
            || (ends_with ".egg-info" k && is_dir_node n)); reflexivity.
Qed.

(** On a directory without symbolic links the clean step ends as the
    clean step of [main] does: in the same outcome, with the same
    entries left. *)
Lemma clean_on_plain w :
  exists t,
    Links.clean_build_artifacts (plain w)
    = (outcome_of (clean_build_artifacts w),
       plain (world_of (clean_build_artifacts w)), t).
Proof.
  destruct (clean_run w) as (t0 & E0 & _). rewrite E0.
  unfold outcome_of, world_of. cbn [fst snd].
  destruct (links_clean_run (plain w)) as (t & E & _).
  { apply no_linked_dir_plain. }
  exists t. rewrite E. unfold plain. cbn [Links.cwd Links.stdin cwd stdin].
  rewrite left_over_plain. reflexivity.
Qed.

(** The sample directory with links has no link to a directory under a
    name the clean step looks at. *)
Lemma no_linked_dir_links_dirty : no_linked_dir (Links.cwd Samples.world_links_dirty).
Proof.
  intros name e He Ht.
  assert (Hin : (name, e) ∈ map_to_list (Links.cwd Samples.world_links_dirty)).
  { apply elem_of_map_to_list. exact He. }
  revert Hin. vm_compute map_to_list.
  rewrite !elem_of_cons. rewrite elem_of_nil.
  intros H. repeat destruct H as [H|H]; try contradiction;
    injection H as -> ->; first [reflexivity | discriminate Ht].
Qed.

(** ** The version check *)

Lemma check_version_agree w v :
  manifest_version (cwd w) = Some v ->
  marker_version (cwd w) = Some v ->
  check_version_consistency w
  = (Ret (VBool true), w, [Print ("✅ Version consistency check passed: " +:+ v)]).
Proof.
  unfold manifest_version, marker_version, file_version, check_version_consistency.
  unfold bind, path_exists, read_text, print, ret.
  destruct (resolve ["pyproject.toml"] (Dir (cwd w))) as [[c1|?]|] eqn:E1;
    try discriminate.
  destruct (resolve ["ragpack"; "__init__.py"] (Dir (cwd w))) as [[c2|?]|] eqn:E2;
    try discriminate.
  intros H1 H2.
  do 4 (cbn -[re_search_quoted append resolve]; rewrite ?E1, ?E2, ?H1, ?H2).
  rewrite String.eqb_refl. reflexivity.
Qed.

Lemma check_version_disagree w :
  ~ (exists v, manifest_version (cwd w) = Some v /\ marker_version (cwd w) = Some v) ->
  exists o t,
    check_version_consistency w = (o, w, t)
    /\ control t = []
    /\ (o = Ret (VBool false) \/ exists e, o = Raise e).
Proof.
  unfold manifest_version, marker_version, file_version, check_version_consistency.
  unfold bind, path_exists, read_text, print, ret. intros Hno.
  destruct (resolve ["pyproject.toml"] (Dir (cwd w))) as [[c1|?]|] eqn:E1;
    do 2 (cbn -[re_search_quoted append resolve]; rewrite ?E1);
    [| eauto 10 | eauto 10].
  destruct (re_search_quoted "version = " c1) as [v1|];
    cbn -[re_search_quoted append resolve]; [|eauto 10].
  destruct (resolve ["ragpack"; "__init__.py"] (Dir (cwd w))) as [[c2|?]|] eqn:E2;
    do 2 (cbn -[re_search_quoted append resolve]; rewrite ?E2);
    [| eauto 10 | eauto 10].
  destruct (re_search_quoted "__version__ = " c2) as [v2|];
    cbn -[re_search_quoted append resolve]; [|eauto 10].
  destruct (String.eqb v1 v2) eqn:Ev; cbn -[re_search_quoted append resolve]; [|eauto 10].
  apply String.eqb_eq in Ev. subst v2. exfalso. apply Hno. eauto.
Qed.

Lemma versions_agree_dec d :
  (exists v, manifest_version d = Some v /\ marker_version d = Some v)
  \/ ~ (exists v, manifest_version d = Some v /\ marker_version d = Some v).
Proof.
  destruct (manifest_version d) as [v1|]; [|right; intros (v & H1 & _); discriminate].
  destruct (marker_version d) as [v2|]; [|right; intros (v & _ & H2); discriminate].
  destruct (decide (v1 = v2)) as [->|Hne]; [left; eauto|].
  right. intros (v & H1 & H2). congruence.
Qed.

Lemma wpc_check_version w Q :
  (forall v, manifest_version (cwd w) = Some v -> marker_version (cwd w) = Some v ->
             Q (Ret (VBool true)) w []) ->
  (~ (exists v, manifest_version (cwd w) = Some v /\ marker_version (cwd w) = Some v) ->
   Q (Ret (VBool false)) w [] /\ forall e, Q (Raise e) w []) ->
  wpc check_version_consistency w Q.
Proof.
  intros Hyes Hno.
  unfold wpc, outcome_of, world_of, controls, trace_of.
  destruct (versions_agree_dec (cwd w)) as [(v & H1 & H2)|Hd].
  - rewrite (check_version_agree w v H1 H2). simpl. eauto.
  - destruct (check_version_disagree w Hd) as (o & t & E & Ht & Ho).
    rewrite E; simpl; rewrite Ht. destruct (Hno Hd) as [Hf Hr].
    destruct Ho as [->|[e ->]]; [exact Hf | apply Hr].
Qed.

(** ** The stages *)

Lemma bind_run {A B} (m : M A) (k : A -> M B) w a w1 t1 o w2 t2 :
  m w = (Ret a, w1, t1) -> k a w1 = (o, w2, t2) ->
  bind m k w = (o, w2, t1 ++ t2).
Proof. intros E1 E2. unfold bind. rewrite E1, E2. reflexivity. Qed.

Section Stages.

Context (T : tools).

(** The quality checks run their three commands one after the other,
    each in the world the one before left, and return whether all
    three return codes are zero. *)
Lemma run_quality_checks_run w :
  let r1 := shell T "black --check ragpack tests examples scripts" w in
  let r2 := shell T "flake8 ragpack tests examples scripts" r1.2 in
  let r3 := shell T "mypy ragpack --ignore-missing-imports" r2.2 in
  exists t,
    run_quality_checks T w
    = (Ret ((returncode r1.1 =? 0) && (returncode r2.1 =? 0) && (returncode r3.1 =? 0)),
       r3.2, t)
    /\ control t =
       [ Call "black --check ragpack tests examples scripts" (returncode r1.1);
         Call "flake8 ragpack tests examples scripts" (returncode r2.1);
         Call "mypy ragpack --ignore-missing-imports" (returncode r3.1) ].
Proof.
  intros r1 r2 r3.
  destruct (run_command_run T "black --check ragpack tests examples scripts"
              "Code formatting check" false w) as (t1 & E1 & Ht1).
  destruct (run_command_run T "flake8 ragpack tests examples scripts"
              "Linting check" false r1.2) as (t2 & E2 & Ht2).
  destruct (run_command_run T "mypy ragpack --ignore-missing-imports"
              "Type checking" false r2.2) as (t3 & E3 & Ht3).
  fold r1 in E1. fold r2 in E2. fold r3 in E3.
  exists (t1 ++ t2 ++ t3 ++ []). split.
  - unfold run_quality_checks, checks. cbn [run_checks].
    eapply bind_run; [exact E1|].
    eapply bind_run; [exact E2|].
    eapply bind_run; [exact E3|].
    unfold ret. f_equal. f_equal. f_equal.
    destruct (returncode r1.1 =? 0), (returncode r2.1 =? 0), (returncode r3.1 =? 0);
      reflexivity.
  - rewrite !control_app, Ht1, Ht2, Ht3. reflexivity.
Qed.

Lemma wpc_run_quality_checks w Q :
  (forall rc1 rc2 rc3 w',
     Q (Ret ((rc1 =? 0) && (rc2 =? 0) && (rc3 =? 0))) w'
       [ Call "black --check ragpack tests examples scripts" rc1;
         Call "flake8 ragpack tests examples scripts" rc2;
         Call "mypy ragpack --ignore-missing-imports" rc3 ]) ->
  wpc (run_quality_checks T) w Q.
Proof.
  intros HQ. destruct (run_quality_checks_run w) as (t & E & Ht).
  unfold wpc, outcome_of, world_of, controls, trace_of.
  rewrite E; simpl. rewrite Ht. apply HQ.
Qed.

Lemma wpc_run_command_any command description check w Q :
  (forall rc w', Q (Ret (rc =? 0)) w' [Call command rc]) ->
  wpc (run_command T command description check) w Q.
Proof. intros HQ. apply wpc_run_command. apply HQ. Qed.

(** The listing of the artifacts at the end of [main] shows no control
    event and leaves the world alone; it fails when [dist] is not a
    directory. *)
Lemma wpc_listing w Q :
  (forall o, Q o w []) ->
  wpc (e <- path_exists ["dist"] ;;
       when e
         (print (nl +:+ "📁 Build artifacts in dist:") ;;
          files <- iterdir ["dist"] ;;
          for_each files (fun file =>
            print ("   - " +:+ file.1 +:+ " (" +:+ format_kb T file.2 +:+ " KB)")))) w Q.
Proof.
  intros HQ.
  apply wpc_bind, wpc_path_exists. cbv beta iota.
  apply wpc_when; intros _; [|apply HQ].
  apply wpc_bind, wpc_print. cbv beta iota.
  apply wpc_bind.
  unfold wpc at 1, iterdir, outcome_of, world_of, controls, trace_of.
  destruct (resolve ["dist"] (Dir (cwd w))) as [[c|ch]|]; cbn [fst snd control];
    try apply HQ.
  apply wpc_silent; [|intros; apply HQ].
  apply silent_for_each. intros x. apply silent_print.
Qed.

End Stages.

(** One step of a run of [main]. *)
Ltac wstep :=
  lazymatch goal with
  | |- wpc (bind (path_exists _) _) _ _ => apply wpc_listing; intros ?
  | |- wpc (bind _ _) _ _ => apply wpc_bind
  | |- wpc (print _) _ _ => apply wpc_print
  | |- wpc (ret _) _ _ => apply wpc_ret
  | |- wpc (sys_exit _) _ _ => apply wpc_sys_exit
  | |- wpc (input _) ?w _ =>
      let r := fresh "response" in
      let rest := fresh "rest" in
      apply wpc_input; destruct (stdin w) as [|r rest]
  | |- wpc (when _ clean_build_artifacts) _ _ => apply wpc_when_clean; intros ? ? ?
  | |- wpc (when _ _) _ _ => apply wpc_when; intros ?; try discriminate
  | |- wpc check_version_consistency _ _ =>
      apply wpc_check_version; [intros ? ? ? | intros ?; split; [|intros ?]]
  | |- wpc (run_quality_checks _) _ _ => apply wpc_run_quality_checks; intros ? ? ? ?
  | |- wpc (run_command _ _ _ _) _ _ => apply wpc_run_command_any; intros ? ?
  | |- wpc (run_tests _) _ _ => unfold run_tests
  | |- wpc (build_package _) _ _ => unfold build_package
  | |- wpc (check_package _) _ _ => unfold check_package
  | |- wpc (upload_to_test_pypi _) _ _ => unfold upload_to_test_pypi
  | |- wpc (upload_to_pypi _) _ _ => unfold upload_to_pypi
  | |- wpc (match ?t with Build => _ | TestPypi => _ | Pypi => _ end) _ _ => destruct t
  end; cbv beta iota.

Ltac wrun := unfold main; repeat wstep.

(** ** Runs that differ only in what they print *)

Lemma sim_refl {A} (m : M A) : sim m m.
Proof. intros w. reflexivity. Qed.

Lemma sim_bind {A B} (m1 m2 : M A) (k1 k2 : A -> M B) :
  sim m1 m2 -> (forall a, sim (k1 a) (k2 a)) -> sim (bind m1 k1) (bind m2 k2).
Proof.
  intros Hm Hk w. specialize (Hm w).
  unfold observe, outcome_of, world_of, controls, trace_of, bind in *.
  destruct (m1 w) as [[o1 w1] t1], (m2 w) as [[o2 w2] t2]. simpl in Hm.
  injection Hm as -> -> Ht.
  destruct o2 as [a|c|e]; simpl; [|rewrite Ht; reflexivity..].
  specialize (Hk a w2).
  unfold observe, outcome_of, world_of, controls, trace_of in Hk.
  destruct (k1 a w2) as [[o1' w1'] t1'], (k2 a w2) as [[o2' w2'] t2']. simpl in *.
  injection Hk as -> -> Ht'. rewrite !control_app, Ht, Ht'. reflexivity.
Qed.

Lemma sim_when (b : bool) (m1 m2 : M unit) : sim m1 m2 -> sim (when b m1) (when b m2).
Proof. destruct b; [exact id | intros _; apply sim_refl]. Qed.

Lemma sim_silent (m1 m2 : M unit) : silent m1 -> silent m2 -> sim m1 m2.
Proof.
  intros H1 H2 w.
  destruct (H1 w) as ([] & t1 & E1 & Ht1), (H2 w) as ([] & t2 & E2 & Ht2).
  unfold observe, outcome_of, world_of, controls, trace_of.
  rewrite E1, E2. simpl. rewrite Ht1, Ht2. reflexivity.
Qed.

Lemma sim_run_command T1 T2 command description check :
  same_codes T1 T2 ->
  sim (run_command T1 command description check)
      (run_command T2 command description check).
Proof.
  intros Hs w.
  destruct (run_command_run T1 command description check w) as (t1 & E1 & Ht1).
  destruct (run_command_run T2 command description check w) as (t2 & E2 & Ht2).
  destruct (Hs command w) as [Hrc Hw].
  unfold observe, outcome_of, world_of, controls, trace_of.
  rewrite E1, E2. simpl. rewrite Ht1, Ht2, Hrc, Hw. reflexivity.
Qed.

Lemma same_codes_with_stderr f T : same_codes (with_stderr f T) T.
Proof.
  intros command w. unfold with_stderr. cbn [shell].
  destruct (shell T command w) as [r w']. split; reflexivity.
Qed.

Ltac sstep :=
  lazymatch goal with
  | |- sim (bind _ _) (bind _ _) => apply sim_bind; [|intros ?]
  | |- sim (when _ _) (when _ _) => apply sim_when
  | |- sim (run_command _ _ _ _) (run_command _ _ _ _) =>
      apply sim_run_command; assumption
  | |- sim (for_each _ _) (for_each _ _) =>
      apply sim_silent; apply silent_for_each; intros ?; apply silent_print
  | |- sim (match ?t with Build => _ | TestPypi => _ | Pypi => _ end) _ => destruct t
  | |- sim (run_quality_checks _) _ => unfold run_quality_checks, checks; cbn [run_checks]
  | |- sim (run_tests _) _ => unfold run_tests
  | |- sim (build_package _) _ => unfold build_package
  | |- sim (check_package _) _ => unfold check_package
  | |- sim (upload_to_test_pypi _) _ => unfold upload_to_test_pypi
  | |- sim (upload_to_pypi _) _ => unfold upload_to_pypi
  end.

Lemma sim_main T1 T2 a : same_codes T1 T2 -> sim (main T1 a) (main T2 a).
Proof.
  intros Hs. unfold main. repeat first [sstep | apply sim_refl].
Qed.

(** ** Splitting a list of control events *)

Lemma nil_eq_app_cons {A} (y : A) pre post : [] = pre ++ y :: post -> False.
Proof. destruct pre; discriminate. Qed.

Lemma cons_eq_app_cons {A} (x y : A) l pre post :
  x :: l = pre ++ y :: post ->
  (pre = [] /\ x = y /\ l = post)
  \/ exists pre', pre = x :: pre' /\ l = pre' ++ y :: post.
Proof.
  destruct pre as [|z pre]; simpl; intros H; injection H as -> ->; eauto.
Qed.

Lemma Forall_control (P : event -> Prop) t :
  (forall s, P (Print s)) -> Forall P (control t) -> Forall P t.
Proof.
  intros HP. induction t as [|e t IH]; intros H; [constructor|].
  destruct e; simpl in H.
  - constructor; [apply HP | apply IH, H].
  - inversion H; subst. constructor; auto.
  - inversion H; subst. constructor; auto.
Qed.

(** All the ways a known list is [pre ++ e :: post]. *)
Ltac split_trace H :=
  repeat first
    [ apply nil_eq_app_cons in H; contradiction
    | apply cons_eq_app_cons in H;
      destruct H as [(-> & H & <-) | (? & -> & H)];
      [ try discriminate H | ] ].

Ltac zero_or_not :=
  repeat match goal with
    | H : negb (_ =? _)%Z = false |- _ => apply negb_false_iff, Z.eqb_eq in H
    | H : negb (_ =? _)%Z = true |- _ => apply negb_true_iff, Z.eqb_neq in H
    | H : negb (String.eqb _ _) = false |- _ => apply negb_false_iff in H
    | H : negb (String.eqb _ _) = true |- _ => apply negb_true_iff in H
    end.

(** * The claims *)

(** ** C1: the result of the version check *)

(** With the version 1.2.0 in both the manifest and the package marker,
    the check returns the flag [True]; it does not return the text
    1.2.0. *)
Lemma check_version_returns_flag_not_text :
  manifest_version (cwd (Samples.world_120 [])) = Some "1.2.0"
  /\ marker_version (cwd (Samples.world_120 [])) = Some "1.2.0"
  /\ outcome_of (check_version_consistency (Samples.world_120 [])) = Ret (VBool true)
  /\ outcome_of (check_version_consistency (Samples.world_120 [])) <> Ret (VStr "1.2.0").
Proof.
  repeat split; try (vm_compute; reflexivity).
  vm_compute. discriminate.
Qed.

(** C1 (amended).  When the manifest and the package marker both declare
    the version [v], for instance 1.2.0, the version check succeeds: it
    returns the flag [True], leaves the world as it is, and its only
    output is the success line, which carries the agreed version. *)
Theorem check_version_consistency_agree w v :
  manifest_version (cwd w) = Some v ->
  marker_version (cwd w) = Some v ->
  check_version_consistency w
  = (Ret (VBool true), w, [Print ("✅ Version consistency check passed: " +:+ v)]).
Proof. apply check_version_agree. Qed.

Lemma check_version_consistency_agree_witness :
  manifest_version (cwd (Samples.world_120 [])) = Some "1.2.0"
  /\ marker_version (cwd (Samples.world_120 [])) = Some "1.2.0"
  /\ check_version_consistency (Samples.world_120 [])
     = (Ret (VBool true), Samples.world_120 [],
        [Print "✅ Version consistency check passed: 1.2.0"]).
Proof.
  split; [vm_compute; reflexivity|]. split; [vm_compute; reflexivity|].
  apply (check_version_consistency_agree (Samples.world_120 []) "1.2.0");
    vm_compute; reflexivity.
Defined.

(** ** C2: a version disagreement halts the run *)

(** C2.  When the two version sources differ, or a file or its version
    pattern is missing, the run ends with exit status 1 without running
    any external command (the build command among them) and without
    prompting. *)
Theorem version_disagreement_halts T a w :
  manifest_version (cwd w) = None
  \/ marker_version (cwd w) = None
  \/ manifest_version (cwd w) <> marker_version (cwd w) ->
  status (main T a w) = 1
  /\ controls (main T a w) = []
  /\ Forall (fun e => is_call_of ["python -m build"] e = false) (trace_of (main T a w)).
Proof.
  intros Hbad.
  assert (Hno : forall d, manifest_version d = manifest_version (cwd w) ->
                          marker_version d = marker_version (cwd w) ->
                          ~ (exists v, manifest_version d = Some v /\ marker_version d = Some v)).
  { intros d E1 E2 (v & H1 & H2). rewrite E1 in H1. rewrite E2 in H2.
    destruct Hbad as [H|[H|H]]; congruence. }
  assert (Hmain : status (main T a w) = 1 /\ controls (main T a w) = []).
  { change (wpc (main T a) w (fun o _ c => exit_code o = 1 /\ c = [])).
    unfold main.
    repeat (wstep;
            try solve [ exfalso; cbn [cwd] in *;
                        match goal with
                        | H1 : manifest_version ?d = Some _ |- _ =>
                            apply (Hno d); eauto
                        end ]).
    all: split; reflexivity. }
  destruct Hmain as [Hs Hc]. repeat split; [exact Hs | exact Hc |].
  apply Forall_control; [reflexivity|].
  unfold controls in Hc. rewrite Hc. constructor.
Qed.

Lemma version_disagreement_halts_witness :
  manifest_version (cwd Samples.world_mismatch) = Some "1.2.0"
  /\ marker_version (cwd Samples.world_mismatch) = Some "1.1.9"
  /\ status (main Samples.tools_ok (Args Build false false) Samples.world_mismatch) = 1
  /\ controls (main Samples.tools_ok (Args Build false false) Samples.world_mismatch) = []
  /\ Forall (fun e => is_call_of ["python -m build"] e = false)
       (trace_of (main Samples.tools_ok (Args Build false false) Samples.world_mismatch)).
Proof.
  split; [vm_compute; reflexivity|]. split; [vm_compute; reflexivity|].
  apply (version_disagreement_halts Samples.tools_ok (Args Build false false)
           Samples.world_mismatch).
  right. right. vm_compute. discriminate.
Defined.

(** ** C3: the production upload needs a confirmation *)

(** C3.  With the production index as target, the production upload is
    run only right after the operator answered the confirmation prompt
    with y (in either case).  Whenever the prompt is reached, an answer
    that is not a confirmation ends the run with exit status 1 and no
    upload command is run at all; a confirmation is followed at once by
    the production upload command. *)
Theorem production_upload_needs_confirmation T a w :
  arg_target a = Pypi ->
  (forall pre rc post,
     controls (main T a w) = pre ++ Call "twine upload dist/*" rc :: post ->
     exists r,
       last pre = Some (Prompt "Are you sure you want to continue? (y/N): " (Some r))
       /\ lower r = "y")
  /\ (forall pre response post,
        controls (main T a w)
        = pre ++ Prompt "Are you sure you want to continue? (y/N): " response :: post ->
        (confirms response = false ->
         status (main T a w) = 1
         /\ Forall (fun e => is_call_of [ "twine upload --repository testpypi dist/*";
                                          "twine upload dist/*" ] e = false)
              (trace_of (main T a w)))
        /\ (confirms response = true ->
            exists rc post', post = Call "twine upload dist/*" rc :: post')).
Proof.
  intros Ht.
  enough (H : wpc (main T a) w (fun o _ c =>
    (forall pre rc post,
       c = pre ++ Call "twine upload dist/*" rc :: post ->
       exists r,
         last pre = Some (Prompt "Are you sure you want to continue? (y/N): " (Some r))
         /\ lower r = "y")
    /\ (forall pre response post,
          c = pre ++ Prompt "Are you sure you want to continue? (y/N): " response :: post ->
          (confirms response = false ->
           exit_code o = 1
           /\ Forall (fun e => is_call_of [ "twine upload --repository testpypi dist/*";
                                            "twine upload dist/*" ] e = false) c)
          /\ (confirms response = true ->
              exists rc post', post = Call "twine upload dist/*" rc :: post')))).
  { destruct H as [H1 H2]. split; [exact H1|].
    intros pre response post Heq. destruct (H2 pre response post Heq) as [Hd Hc].
    split; [|exact Hc]. intros Hf. destruct (Hd Hf) as [Hs Hall].
    split; [exact Hs|]. apply Forall_control; [reflexivity | exact Hall]. }
  unfold main. rewrite Ht. repeat wstep.
  all: cbn [app]; split; [intros pre0 rcu post0 Heq | intros pre0 resp post0 Heq].
  all: split_trace Heq.
  all: try (injection Heq as <-); zero_or_not.
  all: try (eexists; split; [reflexivity | apply String.eqb_eq; assumption]).
  all: unfold confirms; split; intros Hc; try congruence.
  all: try (split; [reflexivity | repeat constructor]).
  all: eauto.
Qed.

Lemma production_upload_needs_confirmation_witness :
  arg_target (Args Pypi true true) = Pypi
  /\ controls (main Samples.tools_ok (Args Pypi true true) (Samples.world_120 ["y"]))
     = [Call "python -m build" 0; Call "twine check dist/*" 0]
       ++ Prompt "Are you sure you want to continue? (y/N): " (Some "y")
       :: [Call "twine upload dist/*" 0]
  /\ confirms (Some "y") = true
  /\ exists rc post', [Call "twine upload dist/*" 0] = Call "twine upload dist/*" rc :: post'.
Proof.
  split; [reflexivity|]. split; [vm_compute; reflexivity|]. split; [reflexivity|].
  refine (proj2 (proj2 (production_upload_needs_confirmation Samples.tools_ok
                          (Args Pypi true true) (Samples.world_120 ["y"]) eq_refl)
                   [Call "python -m build" 0; Call "twine check dist/*" 0]
                   (Some "y") [Call "twine upload dist/*" 0] _) _);
    vm_compute; reflexivity.
Defined.

(** ** C4: a failed build halts the run *)

(** C4.  When the build command returns a non-zero code, it is the last
    control event of the run: no prompt is offered and no command
    follows, the run ends with exit status 1, and neither the package
    check nor an upload is run at all. *)
Theorem build_failure_halts T a w pre rc post :
  controls (main T a w) = pre ++ Call "python -m build" rc :: post ->
  rc <> 0 ->
  status (main T a w) = 1
  /\ post = []
  /\ Forall (fun e => is_call_of [ "twine check dist/*";
                                   "twine upload --repository testpypi dist/*";
                                   "twine upload dist/*" ] e = false)
            (trace_of (main T a w)).
Proof.
  intros Heq Hrc.
  enough (H : status (main T a w) = 1 /\ post = []
              /\ Forall (fun e => is_call_of [ "twine check dist/*";
                                   "twine upload --repository testpypi dist/*";
                                   "twine upload dist/*" ] e = false)
                   (controls (main T a w))).
  { destruct H as (H1 & H2 & H3). repeat split; try assumption.
    apply Forall_control; [reflexivity | exact H3]. }
  revert pre rc post Heq Hrc.
  change (wpc (main T a) w (fun o _ c => forall pre0 rcb post0,
    c = pre0 ++ Call "python -m build" rcb :: post0 -> rcb <> 0 ->
    exit_code o = 1 /\ post0 = []
    /\ Forall (fun e => is_call_of [ "twine check dist/*";
                                   "twine upload --repository testpypi dist/*";
                                   "twine upload dist/*" ] e = false) c)).
  wrun.
  all: cbn [app]; intros pre0 rcb post0 Heq Hrc.
  all: split_trace Heq.
  all: injection Heq as <-; zero_or_not; try contradiction.
  all: repeat split; repeat constructor.
Qed.

Lemma build_failure_halts_witness :
  controls (main (Samples.tools_failing ["python -m build"]) (Args Pypi true true)
              (Samples.world_120 ["y"]))
  = [] ++ Call "python -m build" 1 :: []
  /\ 1 <> 0
  /\ status (main (Samples.tools_failing ["python -m build"]) (Args Pypi true true)
               (Samples.world_120 ["y"])) = 1
  /\ @nil event = []
  /\ Forall (fun e => is_call_of [ "twine check dist/*";
                                   "twine upload --repository testpypi dist/*";
                                   "twine upload dist/*" ] e = false)
       (trace_of (main (Samples.tools_failing ["python -m build"]) (Args Pypi true true)
                    (Samples.world_120 ["y"]))).
Proof.
  split; [vm_compute; reflexivity|]. split; [discriminate|].
  apply (build_failure_halts (Samples.tools_failing ["python -m build"])
           (Args Pypi true true) (Samples.world_120 ["y"]) [] 1 []);
    [vm_compute; reflexivity | discriminate].
Defined.

(** ** C5: the runner, the exit code and the error stream *)

(** With an exit code of zero and an error stream that does not decode,
    the runner ends in an exception where, with a text on the error
    stream, it returns [True]; and that text is not among the lines it
    prints. *)
Lemma stderr_decides_the_result :
  Undecoded.run_command (Samples.raw_tools_stderr (Some "warning: deprecated"))
    "python -m build" "Building package" true (Samples.world_120 [])
  = (Ret true, Samples.world_120 [],
     [Print "🔧 Building package..."; Call "python -m build" 0;
      Print "✅ Building package completed successfully"])
  /\ Undecoded.run_command (Samples.raw_tools_stderr None)
       "python -m build" "Building package" true (Samples.world_120 [])
     = (Raise UnicodeDecodeError, Samples.world_120 [],
        [Print "🔧 Building package..."; Call "python -m build" 0]).
Proof. split; reflexivity. Qed.

(** C5 (amended).  When the two captured streams of a command decode, the
    runner returns whether the return code is zero, in the world the
    command leaves, and its one control event is the call: the text of
    the error stream has no part in any of them.  That text is printed
    only when the return code is not zero; with a return code of zero
    the printed lines are the start line, the success line and the
    output line, whatever the error stream holds.  When a stream does
    not decode, the runner ends in [UnicodeDecodeError] right after the
    call.  Over tools whose output decodes the runner is the one [main]
    uses, and with any other text on the error stream that runner and
    the whole of [main] end in the same outcome and the same world and
    show the same commands and prompts. *)
Theorem runner_result_when_output_decodes R T f command description check a w :
  (forall out err,
     Undecoded.raw_stdout (Undecoded.raw_shell R command w).1 = Some out ->
     Undecoded.raw_stderr (Undecoded.raw_shell R command w).1 = Some err ->
     outcome_of (Undecoded.run_command R command description check w)
     = Ret (Undecoded.raw_returncode (Undecoded.raw_shell R command w).1 =? 0)
     /\ world_of (Undecoded.run_command R command description check w)
        = (Undecoded.raw_shell R command w).2
     /\ controls (Undecoded.run_command R command description check w)
        = [Call command (Undecoded.raw_returncode (Undecoded.raw_shell R command w).1)]
     /\ (Undecoded.raw_returncode (Undecoded.raw_shell R command w).1 = 0 ->
         trace_of (Undecoded.run_command R command description check w)
         = [Print ("🔧 " +:+ description +:+ "..."); Call command 0;
            Print ("✅ " +:+ description +:+ " completed successfully")]
           ++ (if nonempty (strip out)
               then [Print ("   Output: " +:+ strip out)] else []))
     /\ (Undecoded.raw_returncode (Undecoded.raw_shell R command w).1 <> 0 ->
         nonempty (strip err) = true ->
         Print ("   stderr: " +:+ (if check then err else strip err))
         ∈ trace_of (Undecoded.run_command R command description check w)))
  /\ (Undecoded.raw_stdout (Undecoded.raw_shell R command w).1 = None
      \/ Undecoded.raw_stderr (Undecoded.raw_shell R command w).1 = None ->
      Undecoded.run_command R command description check w
      = (Raise UnicodeDecodeError, (Undecoded.raw_shell R command w).2,
         [Print ("🔧 " +:+ description +:+ "...");
          Call command (Undecoded.raw_returncode (Undecoded.raw_shell R command w).1)]))
  /\ Undecoded.run_command (Undecoded.decoded T) command description check w
     = run_command T command description check w
  /\ observe (run_command (with_stderr f T) command description check w)
     = observe (run_command T command description check w)
  /\ observe (main (with_stderr f T) a w) = observe (main T a w).
Proof.
  split; [|split; [|split; [|split]]].
  - intros out err Ho He.
    rewrite (raw_run_command_decodes R command description check w out err Ho He).
    unfold outcome_of, world_of, controls, trace_of. cbn [fst snd control].
    rewrite control_report.
    split; [reflexivity|]. split; [reflexivity|]. split; [reflexivity|]. split.
    + intros ->. reflexivity.
    + intros Hrc Hs. apply Z.eqb_neq in Hrc. unfold report. rewrite Hrc.
      do 2 right. destruct check.
      * rewrite (nonempty_strip _ Hs). right. apply elem_of_app. right. left.
      * rewrite Hs. right. apply elem_of_app. right. left.
  - apply raw_run_command_undecodable.
  - apply run_command_decoded.
  - apply sim_run_command, same_codes_with_stderr.
  - apply sim_main, same_codes_with_stderr.
Qed.

Lemma runner_result_when_output_decodes_witness :
  outcome_of (Undecoded.run_command (Samples.raw_tools_stderr (Some "warning: deprecated"))
                "python -m build" "Building package" true (Samples.world_120 []))
  = Ret true
  /\ controls (Undecoded.run_command (Samples.raw_tools_stderr (Some "warning: deprecated"))
                 "python -m build" "Building package" true (Samples.world_120 []))
     = [Call "python -m build" 0]
  /\ trace_of (Undecoded.run_command (Samples.raw_tools_stderr (Some "warning: deprecated"))
                 "python -m build" "Building package" true (Samples.world_120 []))
     = [Print "🔧 Building package..."; Call "python -m build" 0;
        Print "✅ Building package completed successfully"]
  /\ Undecoded.run_command (Samples.raw_tools_stderr None)
       "python -m build" "Building package" true (Samples.world_120 [])
     = (Raise UnicodeDecodeError, Samples.world_120 [],
        [Print "🔧 Building package..."; Call "python -m build" 0])
  /\ observe (main (with_stderr (fun _ _ => "a warning")
                      (Samples.tools_failing ["python -m build"]))
                (Args Build true true) (Samples.world_120 []))
     = observe (main (Samples.tools_failing ["python -m build"])
                  (Args Build true true) (Samples.world_120 [])).
Proof.
  pose proof (runner_result_when_output_decodes
                (Samples.raw_tools_stderr (Some "warning: deprecated"))
                (Samples.tools_failing ["python -m build"])
                (fun _ _ => "a warning") "python -m build" "Building package" true
                (Args Build true true) (Samples.world_120 [])) as (H1 & _ & _ & _ & H5).
  destruct (H1 EmptyString "warning: deprecated" eq_refl eq_refl) as (Ho & _ & Hc & Ht & _).
  pose proof (runner_result_when_output_decodes
                (Samples.raw_tools_stderr None)
                (Samples.tools_failing ["python -m build"])
                (fun _ _ => "a warning") "python -m build" "Building package" true
                (Args Build true true) (Samples.world_120 [])) as (_ & H2 & _).
  split; [exact Ho|]. split; [exact Hc|]. split; [exact (Ht eq_refl)|].
  split; [exact (H2 (or_intror eq_refl)) | exact H5].
Defined.

(** ** C6: skipping the checks *)

(** C6.  With [--skip-checks], no event of the run is one of the three
    quality-check commands or the test command, and none is the prompt
    to continue after a failed check. *)
Theorem skip_checks_skips T a w :
  skip_checks a = true ->
  Forall (fun e =>
            is_call_of [ "black --check ragpack tests examples scripts";
                         "flake8 ragpack tests examples scripts";
                         "mypy ragpack --ignore-missing-imports";
                         "pytest tests/ -v --tb=short" ] e = false
            /\ is_prompt_of "Continue anyway? (y/N): " e = false)
         (trace_of (main T a w)).
Proof.
  intros Hskip. apply Forall_control; [intros s; split; reflexivity|].
  change (wpc (main T a) w (fun _ _ c =>
    Forall (fun e =>
            is_call_of [ "black --check ragpack tests examples scripts";
                         "flake8 ragpack tests examples scripts";
                         "mypy ragpack --ignore-missing-imports";
                         "pytest tests/ -v --tb=short" ] e = false
            /\ is_prompt_of "Continue anyway? (y/N): " e = false) c)).
  unfold main. rewrite Hskip. repeat wstep.
  all: cbn [app]; repeat constructor.
Qed.

Lemma skip_checks_skips_witness :
  skip_checks (Args Build true false) = true
  /\ Forall (fun e =>
               is_call_of [ "black --check ragpack tests examples scripts";
                            "flake8 ragpack tests examples scripts";
                            "mypy ragpack --ignore-missing-imports";
                            "pytest tests/ -v --tb=short" ] e = false
               /\ is_prompt_of "Continue anyway? (y/N): " e = false)
       (trace_of (main Samples.tools_ok (Args Build true false) Samples.world_dirty)).
Proof.
  split; [reflexivity|].
  apply (skip_checks_skips Samples.tools_ok (Args Build true false) Samples.world_dirty).
  reflexivity.
Defined.

(** ** C7: the quality checks *)



(** ** C8: cleaning is total and idempotent *)

(** With [build] a symbolic link to a directory, the clean step announces
    the removal, ends in the [OSError] of [rmtree] and removes nothing. *)
Lemma clean_raises_on_linked_build :
  Links.clean_build_artifacts Samples.world_linked_build
  = (Raise (OSError ["build"]), Samples.world_linked_build,
     [Print "🧹 Removing build"]).
Proof. vm_compute. reflexivity. Qed.

(** C8 (amended).  From a working directory in which no entry the clean
    step looks at ([build], [dist], a name that ends with [.egg-info])
    is a symbolic link to a directory, the clean step returns without an
    exception; afterwards nothing exists under [build] or [dist] and no
    name that ends with [.egg-info] is a directory; run again, it
    returns again, changes nothing and prints nothing.  When there was
    nothing to remove in the first place, it leaves the world as it
    found it and prints nothing. *)
Theorem clean_idempotent_unless_linked w :
  no_linked_dir (Links.cwd w) ->
  exists w1 t1,
    Links.clean_build_artifacts w = (Ret tt, w1, t1)
    /\ Links.exists_at (Links.cwd w1) "build" = false
    /\ Links.exists_at (Links.cwd w1) "dist" = false
    /\ (forall name, ends_with ".egg-info" name = true ->
                     Links.is_dir_at (Links.cwd w1) name = false)
    /\ Links.clean_build_artifacts w1 = (Ret tt, w1, [])
    /\ (Links.exists_at (Links.cwd w) "build" = false ->
        Links.exists_at (Links.cwd w) "dist" = false ->
        (forall name, ends_with ".egg-info" name = true ->
                      Links.is_dir_at (Links.cwd w) name = false) ->
        w1 = w /\ t1 = []).
Proof.
  intros Hno. destruct (links_clean_run w Hno) as (t1 & E1 & Ht1).
  exists (Links.World (left_over (Links.cwd w)) (Links.stdin w)), t1.
  split; [exact E1|]. cbn [Links.cwd Links.stdin].
  split; [apply exists_at_left_over; reflexivity|].
  split; [apply exists_at_left_over; reflexivity|].
  split; [intros name; apply is_dir_at_left_over|].
  split.
  - destruct (links_clean_run (Links.World (left_over (Links.cwd w)) (Links.stdin w)))
      as (t2 & E2 & Ht2).
    { apply no_linked_dir_left_over, Hno. }
    cbn [Links.cwd Links.stdin] in *. rewrite left_over_idemp in E2.
    rewrite E2. destruct t2 as [|e t2]; [reflexivity|]. exfalso.
    destruct (proj1 (Ht2 e) ltac:(left)) as (name & x & Ex & Hx & _).
    rewrite left_over_lookup in Ex. destruct (Links.cwd w !! name) as [y|]; [|discriminate].
    destruct (taken name y) eqn:Hy; [discriminate|]. injection Ex as ->. congruence.
  - intros Hb Hd He. pose proof (left_over_id _ Hb Hd He) as Hid. split.
    + destruct w as [d s]. cbn [Links.cwd Links.stdin] in *. rewrite Hid. reflexivity.
    + destruct t1 as [|e t1]; [reflexivity|]. exfalso.
      destruct (proj1 (Ht1 e) ltac:(left)) as (name & x & Ex & Hx & _).
      pose proof (left_over_lookup (Links.cwd w) name) as Hl.
      rewrite Hid, Ex, Hx in Hl. discriminate Hl.
Qed.

Lemma clean_idempotent_unless_linked_witness :
  no_linked_dir (Links.cwd Samples.world_links_dirty)
  /\ exists w1 t1,
       Links.clean_build_artifacts Samples.world_links_dirty = (Ret tt, w1, t1)
       /\ Links.exists_at (Links.cwd w1) "build" = false
       /\ Links.exists_at (Links.cwd w1) "dist" = false
       /\ (forall name, ends_with ".egg-info" name = true ->
                        Links.is_dir_at (Links.cwd w1) name = false)
       /\ Links.clean_build_artifacts w1 = (Ret tt, w1, [])
       /\ (Links.exists_at (Links.cwd Samples.world_links_dirty) "build" = false ->
           Links.exists_at (Links.cwd Samples.world_links_dirty) "dist" = false ->
           (forall name, ends_with ".egg-info" name = true ->
                         Links.is_dir_at (Links.cwd Samples.world_links_dirty) name = false) ->
           w1 = Samples.world_links_dirty /\ t1 = []).
Proof.
  split; [exact no_linked_dir_links_dirty|].
  exact (clean_idempotent_unless_linked Samples.world_links_dirty no_linked_dir_links_dirty).
Defined.

(** ** C9: the prompts *)

(** C9.  Every prompt of a run is one of the two questions of the script,
    and what follows it depends on the answer alone: the answer
    confirms exactly when it is a line that lowercased is the letter y;
    after a confirmation the next control event is the command of the
    next stage (the tests, the build or the production upload); after
    anything else, the end of the input included, nothing follows and
    the exit status is 1. *)
Theorem prompts_continue_iff_y T a w pre message response post :
  controls (main T a w) = pre ++ Prompt message response :: post ->
  (message = "Continue anyway? (y/N): "
   \/ message = "Are you sure you want to continue? (y/N): ")
  /\ (confirms response = true <-> exists r, response = Some r /\ lower r = "y")
  /\ (confirms response = true ->
      exists command rc post',
        post = Call command rc :: post'
        /\ command ∈ [ "pytest tests/ -v --tb=short"; "python -m build";
                       "twine upload dist/*" ])
  /\ (confirms response = false -> post = [] /\ status (main T a w) = 1).
Proof.
  intros Heq.
  assert (Hiff : confirms response = true <-> exists r, response = Some r /\ lower r = "y").
  { unfold confirms. destruct response as [r|].
    - rewrite String.eqb_eq. split; [eauto | intros (r' & [= <-] & H); exact H].
    - split; [discriminate | intros (r' & [=] & _)]. }
  enough (H : (message = "Continue anyway? (y/N): "
               \/ message = "Are you sure you want to continue? (y/N): ")
              /\ (confirms response = true ->
                  exists command rc post',
                    post = Call command rc :: post'
                    /\ command ∈ [ "pytest tests/ -v --tb=short"; "python -m build";
                                   "twine upload dist/*" ])
              /\ (confirms response = false -> post = [] /\ status (main T a w) = 1))
    by tauto.
  clear Hiff. revert pre message response post Heq.
  change (wpc (main T a) w (fun o _ c => forall pre0 msg resp post0,
    c = pre0 ++ Prompt msg resp :: post0 ->
    (msg = "Continue anyway? (y/N): "
     \/ msg = "Are you sure you want to continue? (y/N): ")
    /\ (confirms resp = true ->
        exists command rc post',
          post0 = Call command rc :: post'
          /\ command ∈ [ "pytest tests/ -v --tb=short"; "python -m build";
                         "twine upload dist/*" ])
    /\ (confirms resp = false -> post0 = [] /\ exit_code o = 1))).
  wrun.
  all: cbn [app]; intros pre0 msg resp post0 Heq.
  all: split_trace Heq.
  all: injection Heq as <- <-; zero_or_not.
  all: split; [auto|].
  all: unfold confirms; split; intros Hc; try congruence.
  all: try (split; reflexivity).
  all: eexists _, _, _; split; [reflexivity|].
  all: set_solver.
Qed.

Lemma prompts_continue_iff_y_witness :
  controls (main (Samples.tools_failing ["flake8 ragpack tests examples scripts"])
              (Args Build false true) (Samples.world_120 ["Y"]))
  = [ Call "black --check ragpack tests examples scripts" 0;
      Call "flake8 ragpack tests examples scripts" 1;
      Call "mypy ragpack --ignore-missing-imports" 0 ]
    ++ Prompt "Continue anyway? (y/N): " (Some "Y")
    :: [ Call "pytest tests/ -v --tb=short" 0;
         Call "python -m build" 0;
         Call "twine check dist/*" 0 ]
  /\ confirms (Some "Y") = true
  /\ exists command rc post',
       [ Call "pytest tests/ -v --tb=short" 0;
         Call "python -m build" 0;
         Call "twine check dist/*" 0 ] = Call command rc :: post'
       /\ command ∈ [ "pytest tests/ -v --tb=short"; "python -m build";
                      "twine upload dist/*" ].
Proof.
  split; [vm_compute; reflexivity|]. split; [reflexivity|].
  refine (proj1 (proj2 (proj2
            (prompts_continue_iff_y
               (Samples.tools_failing ["flake8 ragpack tests examples scripts"])
               (Args Build false true) (Samples.world_120 ["Y"])
               [ Call "black --check ragpack tests examples scripts" 0;
                 Call "flake8 ragpack tests examples scripts" 1;
                 Call "mypy ragpack --ignore-missing-imports" 0 ]
               "Continue anyway? (y/N): " (Some "Y")
               [ Call "pytest tests/ -v --tb=short" 0;
                 Call "python -m build" 0;
                 Call "twine check dist/*" 0 ] _))) _);
    vm_compute; reflexivity.
Defined.

(** Answers the script takes for a refusal, and the two it accepts. *)
Example confirms_samples :
  confirms (Some "y") = true
  /\ confirms (Some "Y") = true
  /\ confirms (Some "yes") = false
  /\ confirms (Some "Y es") = false
  /\ confirms (Some EmptyString) = false
  /\ confirms (Some "n") = false
  /\ confirms None = false.
Proof. repeat split; reflexivity. Qed.

(** ** C10: what cleaning removes and what it leaves *)

(** C10.  After the clean step the entries [build] and [dist] are gone,
    whether they were files or directories; an entry whose name ends with
    [.egg-info] is gone when it was a directory and unchanged when it
    was a regular file; every entry with another name is unchanged, and
    so is the operator's pending input. *)
Theorem clean_frame w name :
  let w1 := world_of (clean_build_artifacts w) in
  (name = "build" \/ name = "dist" -> cwd w1 !! name = None)
  /\ (forall ch, ends_with ".egg-info" name = true ->
                 cwd w !! name = Some (Dir ch) -> cwd w1 !! name = None)
  /\ (forall c, ends_with ".egg-info" name = true ->
                cwd w !! name = Some (File c) -> cwd w1 !! name = Some (File c))
  /\ (name <> "build" -> name <> "dist" -> ends_with ".egg-info" name = false ->
      cwd w1 !! name = cwd w !! name)
  /\ stdin w1 = stdin w.
Proof.
  destruct (clean_run w) as (t1 & E1 & _ & _).
  rewrite E1. unfold world_of. cbn [fst snd cwd stdin].
  rewrite cleaned_lookup. unfold kept. repeat split.
  - intros [-> | ->]; [destruct (cwd w !! "build") | destruct (cwd w !! "dist")]; reflexivity.
  - intros ch Hs ->. rewrite Hs. cbn [is_dir_node andb]. rewrite orb_true_r. reflexivity.
  - intros c Hs ->.
    destruct (String.eqb_spec name "build") as [->|_]; [discriminate Hs|].
    destruct (String.eqb_spec name "dist") as [->|_]; [discriminate Hs|].
    rewrite Hs. reflexivity.
  - intros Hb Hd Hs. rewrite Hs.
    rewrite (proj2 (String.eqb_neq _ _) Hb), (proj2 (String.eqb_neq _ _) Hd).
    destruct (cwd w !! name); reflexivity.
Qed.

Lemma clean_frame_witness :
  cwd Samples.world_dirty !! "dist" = Some (File "stale")
  /\ cwd (world_of (clean_build_artifacts Samples.world_dirty)) !! "dist" = None
  /\ cwd (world_of (clean_build_artifacts Samples.world_dirty)) !! "notes.egg-info"
     = Some (File "a regular file")
  /\ cwd (world_of (clean_build_artifacts Samples.world_dirty)) !! "README.md"
     = cwd Samples.world_dirty !! "README.md".
Proof.
  split; [vm_compute; reflexivity|].
  split; [apply (proj1 (clean_frame Samples.world_dirty "dist")); right; reflexivity|].
  split.
  - apply (proj1 (proj2 (proj2 (clean_frame Samples.world_dirty "notes.egg-info"))));
      vm_compute; reflexivity.
  - apply (proj1 (proj2 (proj2 (proj2 (clean_frame Samples.world_dirty "README.md")))));
      [discriminate | discriminate | vm_compute; reflexivity].
Defined.

(** * Further properties of the script *)

(** ** The search for a quoted version *)

Lemma string_app_nil (b : string) : EmptyString +:+ b = b.
Proof. reflexivity. Qed.

Lemma string_app_cons c (a b : string) : String c a +:+ b = String c (a +:+ b).
Proof. reflexivity. Qed.

Lemma string_app_assoc (a b c : string) : (a +:+ b) +:+ c = a +:+ b +:+ c.
Proof.
  induction a as [|x a IH]; [reflexivity|].
  rewrite !string_app_cons, IH. reflexivity.
Qed.

Lemma prefix_app_iff p s : String.prefix p s = true <-> exists r, s = p +:+ r.
Proof.
  revert s. induction p as [|x p IH]; intros s.
  - destruct s; simpl; split; eauto.
  - destruct s as [|y s]; simpl.
    + split; [discriminate | intros [r Hr]; discriminate].
    + destruct (ascii_dec x y) as [->|Hne].
      * rewrite IH. split; intros [r Hr]; exists r; [rewrite Hr; reflexivity|].
        rewrite string_app_cons in Hr. congruence.
      * split; [discriminate|]. intros [r Hr]. rewrite string_app_cons in Hr. congruence.
Qed.

Lemma substring_all s : substring 0 (String.length s) s = s.
Proof. induction s as [|x s IH]; simpl; [reflexivity|]. rewrite IH. reflexivity. Qed.

Lemma substring_after p r :
  substring (String.length p) (String.length (p +:+ r) - String.length p) (p +:+ r) = r.
Proof.
  induction p as [|x p IH].
  - rewrite string_app_nil. cbn [String.length]. rewrite Nat.sub_0_r. apply substring_all.
  - rewrite string_app_cons. cbn [String.length substring Nat.sub]. exact IH.
Qed.

Lemma span_unquoted_spec s g rest :
  span_unquoted s = (g, rest) ->
  s = g +:+ rest /\ has_quote g = false
  /\ (rest = EmptyString \/ exists post, rest = dq +:+ post).
Proof.
  revert g rest. induction s as [|c s IH]; intros g rest; cbn [span_unquoted].
  - intros [= <- <-]. auto.
  - destruct (Ascii.eqb c (ascii_of_nat 34)) eqn:Ec.
    + intros [= <- <-]. apply Ascii.eqb_eq in Ec. subst c.
      repeat split; [right; exists s; reflexivity].
    + destruct (span_unquoted s) as [g' rest'] eqn:Es. intros [= <- <-].
      destruct (IH g' rest' eq_refl) as (-> & Hq & Hr).
      rewrite string_app_cons. cbn [has_quote]. rewrite Ec, Hq. auto.
Qed.

Lemma span_unquoted_app g post :
  has_quote g = false -> span_unquoted (g +:+ dq +:+ post) = (g, dq +:+ post).
Proof.
  induction g as [|c g IH]; cbn [has_quote]; intros Hq.
  - reflexivity.
  - apply orb_false_iff in Hq as [Hc Hq]. rewrite string_app_cons.
    cbn [span_unquoted]. rewrite Hc, (IH Hq). reflexivity.
Qed.

Lemma match_quoted_here_iff lit s g :
  match_quoted_here lit s = Some g <-> exists post, occurs_quoted lit s EmptyString g post.
Proof.
  unfold match_quoted_here, occurs_quoted. split.
  - destruct (String.prefix (lit +:+ dq) s) eqn:Hp; [|discriminate].
    apply prefix_app_iff in Hp as [r ->]. rewrite substring_after.
    destruct (span_unquoted r) as [g' rest] eqn:Es.
    destruct (span_unquoted_spec r g' rest Es) as (-> & Hq & _).
    destruct (nonempty g') eqn:Hn; [|discriminate]. cbn [andb].
    destruct (String.prefix dq rest) eqn:Hr; [|discriminate].
    intros [= <-]. apply prefix_app_iff in Hr as [post ->].
    exists post. rewrite string_app_nil, string_app_assoc. auto.
  - intros (post & Heq & Hn & Hq). rewrite string_app_nil in Heq. subst s.
    rewrite <- (string_app_assoc lit dq).
    rewrite (proj2 (prefix_app_iff _ _)) by eauto.
    rewrite substring_after, (span_unquoted_app g post Hq), Hn. cbn [andb].
    rewrite (proj2 (prefix_app_iff _ _)) by eauto. reflexivity.
Qed.

(** X1.  A version the search returns is not empty, holds no double quote,
    and stands in the text between double quotes right after the
    literal; it is the value of the leftmost such place. *)
Theorem re_search_quoted_leftmost lit s g :
  re_search_quoted lit s = Some g ->
  exists pre post,
    occurs_quoted lit s pre g post
    /\ forall pre' g' post',
         occurs_quoted lit s pre' g' post' -> (String.length pre <= String.length pre')%nat.
Proof.
  revert g. induction s as [|c s IH]; intros g; cbn [re_search_quoted].
  - destruct (match_quoted_here lit EmptyString) as [g0|] eqn:Hm; [|discriminate].
    intros [= ->]. apply match_quoted_here_iff in Hm as [post Ho].
    exists EmptyString, post. split; [exact Ho|]. intros. cbn. lia.
  - destruct (match_quoted_here lit (String c s)) as [g0|] eqn:Hm.
    + intros [= ->]. apply match_quoted_here_iff in Hm as [post Ho].
      exists EmptyString, post. split; [exact Ho|]. intros. cbn. lia.
    + intros Hs. destruct (IH g Hs) as (pre & post & (Heq & Hn & Hq) & Hleft).
      exists (String c pre), post. split.
      * repeat split; [|exact Hn|exact Hq]. rewrite string_app_cons, <- Heq. reflexivity.
      * intros pre' g' post' (Heq' & Hn' & Hq').
        destruct pre' as [|c' pre'].
        -- assert (Hsome : match_quoted_here lit (String c s) = Some g').
           { apply match_quoted_here_iff. exists post'. repeat split; assumption. }
           congruence.
        -- rewrite string_app_cons in Heq'. injection Heq' as <- Heq'.
           cbn [String.length]. apply le_n_S. apply (Hleft pre' g' post').
           repeat split; assumption.
Qed.

Lemma re_search_quoted_leftmost_witness :
  re_search_quoted "version = " (Samples.pyproject_toml "1.2.0") = Some "1.2.0"
  /\ exists pre post,
       occurs_quoted "version = " (Samples.pyproject_toml "1.2.0") pre "1.2.0" post
       /\ forall pre' g' post',
            occurs_quoted "version = " (Samples.pyproject_toml "1.2.0") pre' g' post' ->
            (String.length pre <= String.length pre')%nat.
Proof.
  split; [reflexivity|].
  apply (re_search_quoted_leftmost "version = " (Samples.pyproject_toml "1.2.0") "1.2.0").
  reflexivity.
Defined.

(** X2.  Whenever the text holds the literal followed by a quoted value
    that is not empty and holds no quote, the search finds a version. *)
Theorem re_search_quoted_finds lit s pre g post :
  occurs_quoted lit s pre g post -> is_Some (re_search_quoted lit s).
Proof.
  revert s. induction pre as [|c pre IH]; intros s Ho.
  - assert (Hm : match_quoted_here lit s = Some g).
    { apply match_quoted_here_iff. eauto. }
    destruct s; cbn [re_search_quoted]; rewrite Hm; eauto.
  - destruct Ho as (-> & Hn & Hq). rewrite string_app_cons. cbn [re_search_quoted].
    destruct (match_quoted_here lit _); [eauto|].
    apply IH. repeat split; assumption.
Qed.

Lemma re_search_quoted_finds_witness :
  occurs_quoted "__version__ = " (Samples.init_py "1.1.9") EmptyString "1.1.9" nl
  /\ is_Some (re_search_quoted "__version__ = " (Samples.init_py "1.1.9")).
Proof.
  assert (Ho : occurs_quoted "__version__ = " (Samples.init_py "1.1.9")
                 EmptyString "1.1.9" nl) by (repeat split; reflexivity).
  split; [exact Ho|].
  exact (re_search_quoted_finds "__version__ = " (Samples.init_py "1.1.9")
           EmptyString "1.1.9" nl Ho).
Defined.

(** ** The version check, further *)

(** X3.  The version check returns [True] only when both files are regular
    files that declare one and the same version (and then it does); it
    never changes the world and never ends the process itself. *)
Theorem check_version_succeeds_iff w :
  (outcome_of (check_version_consistency w) = Ret (VBool true)
   <-> exists v, manifest_version (cwd w) = Some v /\ marker_version (cwd w) = Some v)
  /\ world_of (check_version_consistency w) = w
  /\ forall code, outcome_of (check_version_consistency w) <> Exit code.
Proof.
  destruct (versions_agree_dec (cwd w)) as [(v & H1 & H2)|Hd].
  - rewrite (check_version_agree w v H1 H2). unfold outcome_of, world_of. cbn [fst snd].
    repeat split; eauto; discriminate.
  - destruct (check_version_disagree w Hd) as (o & t & E & _ & Ho).
    rewrite E. unfold outcome_of, world_of. cbn [fst snd].
    repeat split.
    + intros ->. destruct Ho as [Ho|[e Ho]]; discriminate.
    + intros H. contradiction.
    + intros code ->. destruct Ho as [Ho|[e Ho]]; discriminate.
Qed.

(** X4.  The existence test of the version check does not tell a file from
    a directory: when [pyproject.toml] is a directory, or the manifest
    declares a version and [ragpack/__init__.py] is a directory, reading
    it raises [IsADirectoryError] out of the check, which prints no
    diagnostic. *)
Theorem check_version_on_directory w ch :
  (cwd w !! "pyproject.toml" = Some (Dir ch) ->
   check_version_consistency w
   = (Raise (IsADirectoryError ["pyproject.toml"]), w, []))
  /\ (is_Some (manifest_version (cwd w)) ->
      resolve ["ragpack"; "__init__.py"] (Dir (cwd w)) = Some (Dir ch) ->
      check_version_consistency w
      = (Raise (IsADirectoryError ["ragpack"; "__init__.py"]), w, [])).
Proof.
  split.
  - intros Hd.
    assert (E1 : resolve ["pyproject.toml"] (Dir (cwd w)) = Some (Dir ch)).
    { cbn [resolve]. rewrite Hd. reflexivity. }
    unfold check_version_consistency, bind, path_exists, read_text.
    do 2 (cbn -[re_search_quoted append resolve]; rewrite ?E1).
    reflexivity.
  - unfold manifest_version, file_version.
    intros [v Hv] Hd. unfold check_version_consistency, bind, path_exists, read_text, print, ret.
    destruct (resolve ["pyproject.toml"] (Dir (cwd w))) as [[c1|?]|] eqn:E1;
      try discriminate.
    do 3 (cbn -[re_search_quoted append resolve]; rewrite ?E1, ?Hd, ?Hv).
    reflexivity.
Qed.

Lemma check_version_on_directory_witness :
  cwd (World {[ "pyproject.toml" := Dir ∅ ]} []) !! "pyproject.toml" = Some (Dir ∅)
  /\ check_version_consistency (World {[ "pyproject.toml" := Dir ∅ ]} [])
     = (Raise (IsADirectoryError ["pyproject.toml"]),
        World {[ "pyproject.toml" := Dir ∅ ]} [], []).
Proof.
  split; [vm_compute; reflexivity|].
  apply (proj1 (check_version_on_directory (World {[ "pyproject.toml" := Dir ∅ ]} []) ∅)).
  vm_compute. reflexivity.
Defined.

(** ** Cleaning, further *)

(** X6.  From a working directory in which no entry the clean step looks
    at is a symbolic link to a directory, the clean step prints nothing
    but removal lines, one for each entry it removes and none for an
    entry it leaves: a line is printed exactly when it names an entry
    that was there before and is gone afterwards. *)
Theorem clean_reports_what_it_removes w e :
  no_linked_dir (Links.cwd w) ->
  (e ∈ (Links.clean_build_artifacts w).2
   <-> exists name,
         e = Print ("🧹 Removing " +:+ name)
         /\ is_Some (Links.cwd w !! name)
         /\ Links.cwd (Links.clean_build_artifacts w).1.2 !! name = None).
Proof.
  intros Hno. destruct (links_clean_run w Hno) as (t & E & Ht).
  rewrite E. cbn [fst snd Links.cwd]. rewrite Ht. split.
  - intros (name & x & Ex & Hx & ->). exists name. split; [reflexivity|].
    split; [eauto|]. rewrite left_over_lookup, Ex, Hx. reflexivity.
  - intros (name & -> & [x Ex] & Hgone). exists name, x.
    split; [exact Ex|]. split; [|reflexivity].
    rewrite left_over_lookup, Ex in Hgone.
    destruct (taken name x); [reflexivity | discriminate Hgone].
Qed.

Lemma clean_reports_what_it_removes_witness :
  no_linked_dir (Links.cwd Samples.world_links_dirty)
  /\ (Print "🧹 Removing dist" ∈ (Links.clean_build_artifacts Samples.world_links_dirty).2
      <-> exists name,
            Print "🧹 Removing dist" = Print ("🧹 Removing " +:+ name)
            /\ is_Some (Links.cwd Samples.world_links_dirty !! name)
            /\ Links.cwd (Links.clean_build_artifacts Samples.world_links_dirty).1.2 !! name
               = None).
Proof.
  split; [exact no_linked_dir_links_dirty|].
  exact (clean_reports_what_it_removes Samples.world_links_dirty
           (Print "🧹 Removing dist") no_linked_dir_links_dirty).
Defined.



(** ** Whole runs, further *)

Lemma not_elem_by_decide (c : string) (l : list string) :
  bool_decide (c ∈ l) = false -> c ∈ l -> False.
Proof. intros H. exact (bool_decide_eq_false_1 _ H). Qed.

Lemma calls_control t : calls (control t) = calls t.
Proof.
  induction t as [|e t IH]; [reflexivity|].
  destruct e; simpl; rewrite ?IH; reflexivity.
Qed.

Lemma wpc_listing_dist T w Q :
  match cwd w !! "dist" with
  | Some (File _) => Q (Raise (NotADirectoryError ["dist"])) w []
  | _ => Q (Ret tt) w []
  end ->
  wpc (e <- path_exists ["dist"] ;;
       when e
         (print (nl +:+ "📁 Build artifacts in dist:") ;;
          files <- iterdir ["dist"] ;;
          for_each files (fun file =>
            print ("   - " +:+ file.1 +:+ " (" +:+ format_kb T file.2 +:+ " KB)")))) w Q.
Proof.
  intros HQ.
  apply wpc_bind, wpc_path_exists. cbv beta iota. cbn [resolve].
  destruct (cwd w !! "dist") as [[c|ch]|] eqn:Ed.
  - rewrite bool_decide_eq_true_2 by eauto.
    apply wpc_when; intros Hw; [|discriminate Hw].
    apply wpc_bind, wpc_print. cbv beta iota.
    apply wpc_bind.
    unfold wpc at 1, iterdir, outcome_of, world_of, controls, trace_of.
    cbn [resolve]. rewrite Ed. exact HQ.
  - rewrite bool_decide_eq_true_2 by eauto.
    apply wpc_when; intros Hw; [|discriminate Hw].
    apply wpc_bind, wpc_print. cbv beta iota.
    apply wpc_bind.
    unfold wpc at 1, iterdir, outcome_of, world_of, controls, trace_of.
    cbn [resolve]. rewrite Ed. cbn [fst snd control].
    apply wpc_silent; [|intros []; exact HQ].
    apply silent_for_each. intros x. apply silent_print.
  - rewrite bool_decide_eq_false_2 by (intros [? ?]; discriminate).
    apply wpc_when; intros Hw; [discriminate Hw|exact HQ].
Qed.

Ltac wstep_dist :=
  lazymatch goal with
  | |- wpc (bind (path_exists _) _) ?w _ =>
      apply wpc_listing_dist;
      let E := fresh "Edist" in
      destruct (cwd w !! "dist") as [[?|?]|] eqn:E
  | _ => wstep
  end.

Ltac invert_accepted :=
  repeat match goal with
    | H : Forall _ (_ :: _) |- _ => apply Forall_cons in H; destruct H
    | H : Forall _ [] |- _ => clear H
    end;
  cbn [accepted] in *;
  repeat match goal with
    | H : ?c ∈ critical -> _ = 0 |- _ =>
        first [ specialize (H ltac:(apply (bool_decide_unpack _); vm_compute; exact I))
              | clear H ]
    end.

Ltac prove_accepted :=
  cbn [accepted];
  first
    [ exact I
    | assumption
    | let Hc := fresh in
      intros Hc;
      first [ assumption
            | exfalso; revert Hc;
              refine (not_elem_by_decide _ _ _); vm_compute; reflexivity ] ].

(** X7.  The commands of a run are an initial part of the fixed sequence
    of the stages (the three quality checks and the tests unless the
    checks are skipped, the build, the package check, the upload of the
    target): no stage runs out of order or twice.  A run with exit status
    0 ran all of them. *)
Theorem stages_run_in_order T a w :
  calls (trace_of (main T a w)) `prefix_of` pipeline a
  /\ (status (main T a w) = 0 -> calls (trace_of (main T a w)) = pipeline a).
Proof.
  rewrite <- calls_control.
  enough (H : wpc (main T a) w (fun o _ c =>
    calls c `prefix_of` pipeline a /\ (exit_code o = 0 -> calls c = pipeline a))).
  { exact H. }
  destruct a as [t sc scl]. unfold pipeline. cbn [arg_target skip_checks].
  match goal with |- wpc _ _ ?q => set (Q := q) end.
  unfold main. cbn [arg_target skip_checks skip_clean].
  destruct t, sc; cbn [negb]; repeat wstep.
  all: subst Q; cbv beta; cbn [app calls exit_code].
  all: split; [eexists; reflexivity | intros Hz; first [discriminate Hz | reflexivity | idtac]].
Qed.

(** X8.  A run ends with exit status 0 only when the two version sources
    agree, every critical command that ran (build, package check,
    upload) returned zero, every prompt was answered with a
    confirmation, and at the end [dist] is not a regular file (the
    listing of the artifacts raises on one). *)
Theorem exit_zero_only_if T a w :
  status (main T a w) = 0 ->
  (exists v, manifest_version (cwd w) = Some v /\ marker_version (cwd w) = Some v)
  /\ Forall accepted (trace_of (main T a w))
  /\ (forall c, cwd (world_of (main T a w)) !! "dist" <> Some (File c)).
Proof.
  intros Hzero.
  enough (H : wpc (main T a) w (fun o wf c =>
    exit_code o = 0 ->
    (exists v, manifest_version (cwd w) = Some v /\ marker_version (cwd w) = Some v)
    /\ Forall accepted c
    /\ (forall x, cwd wf !! "dist" <> Some (File x)))).
  { destruct (H Hzero) as (Hv & Hall & Hd). repeat split; try assumption.
    apply Forall_control; [intros s; exact I | exact Hall]. }
  clear Hzero.
  match goal with |- wpc _ _ ?q => set (Q := q) end.
  unfold main. repeat wstep_dist.
  all: subst Q; cbv beta; cbn [app exit_code cwd] in *.
  all: intros Hz; try discriminate Hz.
  all: zero_or_not.
  all: repeat split.
  all: try (eexists; split; [etransitivity; [symmetry|]; eassumption
                            | etransitivity; [symmetry|]; eassumption]).
  all: try (intros x; rewrite Edist; discriminate).
  all: repeat (constructor; [prove_accepted|]); try constructor.
  all: try (unfold confirms; assumption).
Qed.

Lemma exit_zero_only_if_witness :
  status (main Samples.tools_ok (Args Pypi false false) (Samples.world_120 ["y"])) = 0
  /\ (exists v,
        manifest_version (cwd (Samples.world_120 ["y"])) = Some v
        /\ marker_version (cwd (Samples.world_120 ["y"])) = Some v)
  /\ Forall accepted
       (trace_of (main Samples.tools_ok (Args Pypi false false) (Samples.world_120 ["y"])))
  /\ (forall c,
        cwd (world_of (main Samples.tools_ok (Args Pypi false false)
                         (Samples.world_120 ["y"]))) !! "dist"
        <> Some (File c)).
Proof.
  split; [vm_compute; reflexivity|].
  apply (exit_zero_only_if Samples.tools_ok (Args Pypi false false) (Samples.world_120 ["y"])).
  vm_compute. reflexivity.
Defined.

(** X9.  A critical command (build, package check, either upload) that
    returns a non-zero code is the last control event of the run, and
    the exit status is 1. *)
Theorem critical_failure_halts T a w pre command rc post :
  controls (main T a w) = pre ++ Call command rc :: post ->
  command ∈ critical ->
  rc <> 0 ->
  status (main T a w) = 1 /\ post = [].
Proof.
  revert pre command rc post.
  change (wpc (main T a) w (fun o _ c => forall pre0 cmd0 rcf post0,
    c = pre0 ++ Call cmd0 rcf :: post0 -> cmd0 ∈ critical -> rcf <> 0 ->
    exit_code o = 1 /\ post0 = [])).
  match goal with |- wpc _ _ ?q => set (Q := q) end.
  wrun.
  all: subst Q; cbv beta; cbn [app]; intros pre0 cmd0 rcf post0 Heq Hc Hrc.
  all: split_trace Heq.
  all: injection Heq as <- <-; zero_or_not.
  all: try contradiction.
  all: try (exfalso; revert Hc; refine (not_elem_by_decide _ _ _); vm_compute; reflexivity).
  all: split; reflexivity.
Qed.

Lemma critical_failure_halts_witness :
  controls (main (Samples.tools_failing ["twine check dist/*"]) (Args TestPypi true true)
              (Samples.world_120 []))
  = [Call "python -m build" 0] ++ Call "twine check dist/*" 1 :: []
  /\ "twine check dist/*" ∈ critical
  /\ 1 <> 0
  /\ status (main (Samples.tools_failing ["twine check dist/*"]) (Args TestPypi true true)
               (Samples.world_120 [])) = 1
  /\ @nil event = [].
Proof.
  assert (Hc : "twine check dist/*" ∈ critical).
  { apply (bool_decide_unpack _). vm_compute. exact I. }
  split; [vm_compute; reflexivity|]. split; [exact Hc|]. split; [discriminate|].
  apply (critical_failure_halts (Samples.tools_failing ["twine check dist/*"])
           (Args TestPypi true true) (Samples.world_120 [])
           [Call "python -m build" 0] "twine check dist/*" 1 []);
    [vm_compute; reflexivity | exact Hc | discriminate].
Defined.



(** X11.  Unless the target is the production index, no event of the run
    is the production upload or the prompt that guards it. *)
Theorem production_only_on_request T a w :
  arg_target a <> Pypi ->
  Forall (fun e =>
            is_call_of ["twine upload dist/*"] e = false
            /\ is_prompt_of "Are you sure you want to continue? (y/N): " e = false)
         (trace_of (main T a w)).
Proof.
  intros Ht. apply Forall_control; [intros s; split; reflexivity|].
  change (wpc (main T a) w (fun _ _ c =>
    Forall (fun e =>
            is_call_of ["twine upload dist/*"] e = false
            /\ is_prompt_of "Are you sure you want to continue? (y/N): " e = false) c)).
  match goal with |- wpc _ _ ?q => set (Q := q) end.
  unfold main. destruct (arg_target a); [| |contradiction]; repeat wstep.
  all: subst Q; cbv beta; cbn [app]; repeat constructor.
Qed.

Lemma production_only_on_request_witness :
  arg_target (Args TestPypi true true) <> Pypi
  /\ Forall (fun e =>
               is_call_of ["twine upload dist/*"] e = false
               /\ is_prompt_of "Are you sure you want to continue? (y/N): " e = false)
       (trace_of (main Samples.tools_ok (Args TestPypi true true) (Samples.world_120 []))).
Proof.
  split; [discriminate|].
  apply (production_only_on_request Samples.tools_ok (Args TestPypi true true)
           (Samples.world_120 [])).
  discriminate.
Defined.

(** X12.  Once the arguments are parsed, the exit status of a run is 0
    or 1. *)
Theorem exit_status_zero_or_one T a w :
  status (main T a w) = 0 \/ status (main T a w) = 1.
Proof.
  change (wpc (main T a) w (fun o _ _ => exit_code o = 0 \/ exit_code o = 1)).
  unfold main. repeat wstep_dist.
  all: first [left; reflexivity | right; reflexivity].
Qed.

Lemma wpc_run_command_inert T command description check w Q :
  inert T ->
  (forall rc w', cwd w' = cwd w -> Q (Ret (rc =? 0)) w' [Call command rc]) ->
  wpc (run_command T command description check) w Q.
Proof. intros Hi HQ. apply wpc_run_command. apply HQ. apply Hi. Qed.

Lemma wpc_run_quality_checks_inert T w Q :
  inert T ->
  (forall rc1 rc2 rc3 w',
     cwd w' = cwd w ->
     Q (Ret ((rc1 =? 0) && (rc2 =? 0) && (rc3 =? 0))) w'
       [ Call "black --check ragpack tests examples scripts" rc1;
         Call "flake8 ragpack tests examples scripts" rc2;
         Call "mypy ragpack --ignore-missing-imports" rc3 ]) ->
  wpc (run_quality_checks T) w Q.
Proof.
  intros Hi HQ. destruct (run_quality_checks_run T w) as (t & E & Ht).
  unfold wpc, outcome_of, world_of, controls, trace_of.
  rewrite E; simpl. rewrite Ht. apply HQ. rewrite !Hi. reflexivity.
Qed.

Ltac wstep_world Hi :=
  lazymatch goal with
  | |- wpc (when _ clean_build_artifacts) _ _ =>
      apply wpc_when; intros ?; [apply wpc_clean|]; cbv beta iota
  | |- wpc (run_quality_checks _) _ _ =>
      apply (wpc_run_quality_checks_inert _ _ _ Hi); intros ? ? ? ? ?; cbv beta iota
  | |- wpc (run_command _ _ _ _) _ _ =>
      apply (wpc_run_command_inert _ _ _ _ _ _ Hi); intros ? ? ?; cbv beta iota
  | _ => wstep
  end.

(** X13.  With tools that leave the entries of the working directory as
    they are, a run changes them through its clean step and nothing
    else: at the end they are the cleaned entries, or with
    [--skip-clean] the entries it started from. *)
Theorem only_cleaning_touches_files T a w :
  inert T ->
  cwd (world_of (main T a w)) = if skip_clean a then cwd w else cleaned (cwd w).
Proof.
  intros Hi.
  change (wpc (main T a) w (fun _ wf _ =>
    cwd wf = if skip_clean a then cwd w else cleaned (cwd w))).
  match goal with |- wpc _ _ ?q => set (Q := q) end.
  unfold main. repeat wstep_world Hi.
  all: subst Q; cbv beta; cbn [cwd] in *.
  all: destruct (skip_clean a); try discriminate; congruence.
Qed.

Lemma only_cleaning_touches_files_witness :
  inert Samples.tools_ok
  /\ cwd (world_of (main Samples.tools_ok (Args Build true false) Samples.world_dirty))
     = cleaned (cwd Samples.world_dirty).
Proof.
  assert (Hi : inert Samples.tools_ok) by (intros command w; reflexivity).
  split; [exact Hi|].
  exact (only_cleaning_touches_files Samples.tools_ok (Args Build true false)
           Samples.world_dirty Hi).
Defined.

(** X14.  A run that stops at the version check has already cleaned: it
    leaves its world cleaned, or with [--skip-clean] as it found it. *)
Theorem version_failure_effect T a w :
  manifest_version (cwd w) = None
  \/ marker_version (cwd w) = None
  \/ manifest_version (cwd w) <> marker_version (cwd w) ->
  world_of (main T a w)
  = if skip_clean a then w else World (cleaned (cwd w)) (stdin w).
Proof.
  intros Hbad.
  assert (Hno : forall d, manifest_version d = manifest_version (cwd w) ->
                          marker_version d = marker_version (cwd w) ->
                          ~ (exists v, manifest_version d = Some v /\ marker_version d = Some v)).
  { intros d E1 E2 (v & H1 & H2). rewrite E1 in H1. rewrite E2 in H2.
    destruct Hbad as [H|[H|H]]; congruence. }
  change (wpc (main T a) w (fun _ wf _ =>
    wf = if skip_clean a then w else World (cleaned (cwd w)) (stdin w))).
  match goal with |- wpc _ _ ?q => set (Q := q) end.
  unfold main.
  repeat (lazymatch goal with
          | |- wpc (when _ clean_build_artifacts) _ _ =>
              apply wpc_when; intros ?; [apply wpc_clean|]; cbv beta iota
          | _ => wstep
          end;
          try solve [ exfalso; cbn [cwd] in *;
                      match goal with
                      | H1 : manifest_version ?d = Some _ |- _ =>
                          apply (Hno d);
                          eauto using cleaned_manifest_version, cleaned_marker_version
                      end ]).
  all: subst Q; cbv beta.
  all: destruct (skip_clean a); try discriminate; reflexivity.
Qed.

Lemma version_failure_effect_witness :
  manifest_version (cwd Samples.world_mismatch)
  <> marker_version (cwd Samples.world_mismatch)
  /\ world_of (main Samples.tools_ok (Args Build false false) Samples.world_mismatch)
     = World (cleaned (cwd Samples.world_mismatch)) (stdin Samples.world_mismatch).
Proof.
  assert (Hne : manifest_version (cwd Samples.world_mismatch)
                <> marker_version (cwd Samples.world_mismatch))
    by (vm_compute; discriminate).
  split; [exact Hne|].
  apply (version_failure_effect Samples.tools_ok (Args Build false false)
           Samples.world_mismatch).
  right. right. exact Hne.
Defined.

(** * The setup script *)

Section SetupDevProofs.

Context (H : SetupDev.host).

Lemma setup_run_command_run command description w :
  exists t,
    SetupDev.run_command H command description w
    = (Ret (returncode (shell (SetupDev.host_tools H) command w).1 =? 0),
       (shell (SetupDev.host_tools H) command w).2, t)
    /\ control t = [Call command (returncode (shell (SetupDev.host_tools H) command w).1)].
Proof.
  unfold SetupDev.run_command, bind, try_except, subprocess_run, print.
  destruct (shell (SetupDev.host_tools H) command w) as [[rc out err] w']; simpl.
  destruct (rc =? 0) eqn:Hrc; simpl;
    repeat match goal with
           | |- context [when ?b _ _] => destruct b; simpl
           end;
    eexists; split; reflexivity.
Qed.

Lemma wpc_setup_run_command command description w Q :
  (forall rc w', Q (Ret (rc =? 0)) w' [Call command rc]) ->
  wpc (SetupDev.run_command H command description) w Q.
Proof.
  intros HQ. destruct (setup_run_command_run command description w) as (t & E & Ht).
  unfold wpc, outcome_of, world_of, controls, trace_of.
  rewrite E; simpl. rewrite Ht. apply HQ.
Qed.

Lemma check_python_version_run w :
  exists t,
    SetupDev.check_python_version H w = (Ret (python_ok (SetupDev.version_info H)), w, t)
    /\ control t = [].
Proof.
  unfold SetupDev.check_python_version, python_ok.
  destruct (SetupDev.version_info H) as [[major minor] micro].
  assert (E : (major <? 3) || ((major =? 3) && (minor <? 9))
              = negb ((3 <? major) || ((major =? 3) && (9 <=? minor)))).
  { destruct (Z.ltb_spec major 3), (Z.ltb_spec 3 major), (Z.eqb_spec major 3),
      (Z.ltb_spec minor 9), (Z.leb_spec 9 minor); cbn; try reflexivity; lia. }
  rewrite E.
  destruct ((3 <? major) || ((major =? 3) && (9 <=? minor))); cbn [negb];
    unfold bind, print, ret; eexists; split; reflexivity.
Qed.

Lemma wpc_check_python_version w Q :
  Q (Ret (python_ok (SetupDev.version_info H))) w [] ->
  wpc (SetupDev.check_python_version H) w Q.
Proof.
  intros HQ. destruct (check_python_version_run w) as (t & E & Ht).
  unfold wpc, outcome_of, world_of, controls, trace_of.
  rewrite E; simpl. rewrite Ht. exact HQ.
Qed.

(** The environment file step returns a flag and shows no control
    event: a refused write is caught. *)
Lemma create_env_file_run w :
  exists b w' t,
    SetupDev.create_env_file H w = (Ret b, w', t) /\ control t = [].
Proof.
  unfold SetupDev.create_env_file, bind, path_exists, try_except, write_text, print, ret.
  cbn [resolve].
  destruct (cwd w !! ".env") as [n|] eqn:En.
  - rewrite bool_decide_eq_true_2 by eauto. do 3 eexists. split; reflexivity.
  - rewrite bool_decide_eq_false_2 by (intros [? ?]; discriminate).
    cbn -[SetupDev.env_content append]. rewrite En.
    destruct (SetupDev.write_refusal H ".env" w) as [[e [part|]]|];
      do 3 eexists; split; reflexivity.
Qed.

Lemma wpc_create_env_file w Q :
  (forall b w', Q (Ret b) w' []) ->
  wpc (SetupDev.create_env_file H) w Q.
Proof.
  intros HQ. destruct (create_env_file_run w) as (b & w' & t & E & Ht).
  unfold wpc, outcome_of, world_of, controls, trace_of.
  rewrite E; simpl. rewrite Ht. apply HQ.
Qed.

Lemma silent_print_next_steps : silent (SetupDev.print_next_steps H).
Proof.
  unfold SetupDev.print_next_steps.
  repeat (apply silent_bind; [apply silent_print | intros _]).
  apply silent_print.
Qed.

Lemma silent_report (failed_steps : list string) :
  silent (match failed_steps with
          | _ :: _ =>
              print (nl +:+ "❌ Setup completed with " +:+ pretty (length failed_steps)
                     +:+ " failed steps:") ;;
              for_each failed_steps (fun step => print ("   - " +:+ step)) ;;
              print (nl +:+ "💡 You may need to fix these issues manually")
          | [] =>
              print (nl +:+ "✅ All setup steps completed successfully!")
          end).
Proof.
  destruct failed_steps as [|s l]; [apply silent_print|].
  apply silent_bind; [apply silent_print | intros _].
  apply silent_bind; [|intros _; apply silent_print].
  apply silent_for_each. intros x. apply silent_print.
Qed.

End SetupDevProofs.

Ltac sdstep :=
  lazymatch goal with
  | |- wpc (bind _ _) _ _ => apply wpc_bind
  | |- wpc (print _) _ _ => apply wpc_print
  | |- wpc (ret _) _ _ => apply wpc_ret
  | |- wpc (sys_exit _) _ _ => apply wpc_sys_exit
  | |- wpc (when _ _) _ _ => apply wpc_when; intros ?; try discriminate
  | |- wpc (path_exists _) _ _ => apply wpc_path_exists
  | |- wpc (SetupDev.check_python_version _) _ _ => apply wpc_check_python_version
  | |- wpc (SetupDev.run_command _ _ _) _ _ => apply wpc_setup_run_command; intros ? ?
  | |- wpc (SetupDev.create_env_file _) _ _ => apply wpc_create_env_file; intros ? ?
  | |- wpc (SetupDev.print_next_steps _) _ _ =>
      apply wpc_silent; [apply silent_print_next_steps | intros []]
  | |- wpc (match _ with [] => _ | _ :: _ => _ end) _ _ =>
      apply wpc_silent; [apply silent_report | intros []]
  | |- wpc (SetupDev.setup_virtual_environment _) _ _ =>
      unfold SetupDev.setup_virtual_environment
  | |- wpc (SetupDev.install_dependencies _) _ _ =>
      unfold SetupDev.install_dependencies; cbv zeta; cbn [SetupDev.run_all]
  | |- wpc (SetupDev.setup_pre_commit _) _ _ => unfold SetupDev.setup_pre_commit
  | |- wpc (SetupDev.run_tests _) _ _ => unfold SetupDev.run_tests
  | |- wpc (if ?b then _ else _) _ _ =>
      let E := fresh "E" in destruct b eqn:E
  end; cbv beta iota zeta.




(** X17.  The environment file step never overwrites and never raises:
    an existing [.env], whatever it is, leaves the world untouched and
    the step returns [True]; a missing one is created with the sample
    text when the write goes through, and the step returns [True]; when
    the operating system refuses the write, the step prints the failure
    with the text of the exception and returns [False], and the
    directory holds what the refused write left there. *)
Theorem create_env_file_result H w :
  (forall n, cwd w !! ".env" = Some n ->
             SetupDev.create_env_file H w
             = (Ret true, w, [Print "✅ .env file already exists"]))
  /\ (cwd w !! ".env" = None ->
      SetupDev.write_refusal H ".env" w = None ->
      SetupDev.create_env_file H w
      = (Ret true,
         World (<[".env" := File SetupDev.env_content]> (cwd w)) (stdin w),
         [Print "✅ Created sample .env file";
          Print "💡 Edit .env file with your actual API keys"]))
  /\ (forall e part,
        cwd w !! ".env" = None ->
        SetupDev.write_refusal H ".env" w = Some (e, part) ->
        SetupDev.create_env_file H w
        = (Ret false,
           match part with
           | Some text => World (<[".env" := File text]> (cwd w)) (stdin w)
           | None => w
           end,
           [Print ("❌ Failed to create .env file: " +:+ SetupDev.str_exception H e)])).
Proof.
  unfold SetupDev.create_env_file, bind, path_exists, try_except, write_text, print, ret.
  cbn [resolve].
  split; [|split].
  - intros n En. rewrite En. rewrite bool_decide_eq_true_2 by eauto. reflexivity.
  - intros En Hr. rewrite En.
    rewrite bool_decide_eq_false_2 by (intros [? ?]; discriminate).
    cbn -[SetupDev.env_content append]. rewrite ?En, Hr. reflexivity.
  - intros e part En Hr. rewrite En.
    rewrite bool_decide_eq_false_2 by (intros [? ?]; discriminate).
    cbn -[SetupDev.env_content append]. rewrite ?En, Hr. destruct part; reflexivity.
Qed.

Lemma create_env_file_result_witness :
  SetupDev.create_env_file (host_posix [] (3, 11, 4))
    (World {[ ".env" := File "OPENAI_API_KEY=secret" ]} [])
  = (Ret true, World {[ ".env" := File "OPENAI_API_KEY=secret" ]} [],
     [Print "✅ .env file already exists"])
  /\ SetupDev.create_env_file (host_read_only [] (3, 11, 4)) (World ∅ [])
     = (Ret false, World ∅ [],
        [Print "❌ Failed to create .env file: Permission denied"]).
Proof.
  split.
  - apply (proj1 (create_env_file_result (host_posix [] (3, 11, 4))
                    (World {[ ".env" := File "OPENAI_API_KEY=secret" ]} []))
             (File "OPENAI_API_KEY=secret")).
    vm_compute. reflexivity.
  - apply (proj2 (proj2 (create_env_file_result (host_read_only [] (3, 11, 4))
                           (World ∅ [])))
             (OSError [".env"]) None); vm_compute; reflexivity.
Defined.

(** X18.  On a Python older than 3.9 the setup ends with exit status 1
    before any command is run, and leaves the world as it found it. *)
Theorem setup_old_python_halts H w :
  python_ok (SetupDev.version_info H) = false ->
  status (SetupDev.main H w) = 1
  /\ controls (SetupDev.main H w) = []
  /\ world_of (SetupDev.main H w) = w.
Proof.
  intros Hv.
  change (wpc (SetupDev.main H) w (fun o wf c => exit_code o = 1 /\ c = [] /\ wf = w)).
  unfold SetupDev.main.
  repeat (sdstep; rewrite ?Hv; cbn [negb]).
  repeat split.
Qed.

Lemma setup_old_python_halts_witness :
  python_ok (SetupDev.version_info (host_posix [] (3, 8, 10))) = false
  /\ status (SetupDev.main (host_posix [] (3, 8, 10)) (World ∅ [])) = 1
  /\ controls (SetupDev.main (host_posix [] (3, 8, 10)) (World ∅ [])) = []
  /\ world_of (SetupDev.main (host_posix [] (3, 8, 10)) (World ∅ [])) = World ∅ [].
Proof.
  split; [reflexivity|].
  apply (setup_old_python_halts (host_posix [] (3, 8, 10)) (World ∅ [])).
  reflexivity.
Defined.


